(** * Select / MultiSelect: a shallow embedding of [src/component/select.tsx]

    The file follows the component source top to bottom: the JavaScript
    string and array primitives the handlers call, the children the
    containers inspect, the event handlers of [Select] and [MultiSelect]
    as state transformers, the events of the rendered tree, and then the
    properties of the specification.

    Conventions.
    - A JavaScript string is a [string]; each [ascii] stands for one UTF-16
      code unit in the range U+0000..U+00FF, so [length] is [.length].
    - A handler runs against the state of the render that created it
      (the snapshot [UI]); its [setState] calls are queued and the last
      one wins, and its callback invocations are recorded in order.
      DOM-only effects ([preventDefault], [stopPropagation], the deferred
      [focus]) are left out.
    - [maxLength] is an optional integer ([None] is [undefined]).
    - A statement over arbitrary props and an arbitrary [UI] is about the
      handlers of one render, whatever came before it: the state may
      have been left by a render with other props (a text typed before
      the container was disabled).
    - [reachable] follows a container that keeps the configuration of
      its mount: [disabled], [creatable], [maxLength], the children and
      the optional callbacks are the same at every render, as on the
      demo page; the controlled [value] belongs to the caller and may be
      different at every render. [dispatch] sends a pointer-down outside
      the root to the listener of the current render: the effect
      re-attaches the listener only when the open flag changes, so this
      is the listener in place as long as the configuration has not
      changed since. *)


From Stdlib Require Import Bool List String Ascii ZArith Lia.
Import ListNotations.
Open Scope string_scope.
Open Scope list_scope.

(** ** JavaScript primitives *)

Module JS.

(** [WhiteSpace] and [LineTerminator] code units below U+0100:
    TAB, LF, VT, FF, CR, SP and NBSP. *)
Definition isWhiteSpace (c : ascii) : bool :=
  let n := nat_of_ascii c in
  ((9 <=? n) && (n <=? 13) || (n =? 32) || (n =? 160))%nat.

Fixpoint trimStart (s : string) : string :=
  match s with
  | EmptyString => EmptyString
  | String c s' => if isWhiteSpace c then trimStart s' else s
  end.

Fixpoint trimEnd (s : string) : string :=
  match s with
  | EmptyString => EmptyString
  | String c s' =>
      match trimEnd s' with
      | EmptyString => if isWhiteSpace c then EmptyString else String c EmptyString
      | r => String c r
      end
  end.

(** [String.prototype.trim] *)
Definition trim (s : string) : string := trimEnd (trimStart s).

(** [String.prototype.toLowerCase] on one code unit: A-Z, and the
    Latin-1 capitals U+00C0..U+00DE except the multiplication sign. *)
Definition lowerChar (c : ascii) : ascii :=
  let n := nat_of_ascii c in
  if ((65 <=? n) && (n <=? 90)
      || (192 <=? n) && (n <=? 222) && negb (n =? 215))%nat
  then ascii_of_nat (n + 32) else c.

Fixpoint toLowerCase (s : string) : string :=
  match s with
  | EmptyString => EmptyString
  | String c s' => String (lowerChar c) (toLowerCase s')
  end.

(** [String.prototype.includes]: [t] occurs in [s] at some position. *)
Fixpoint includes (s t : string) : bool :=
  prefix t s ||
  match s with
  | EmptyString => false
  | String _ s' => includes s' t
  end.

(** Truthiness of a string: the empty string is the only falsy one. *)
Definition truthy (s : string) : bool :=
  match s with EmptyString => false | _ => true end.

(** Truthiness of an optional string ([undefined] is falsy). *)
Definition truthyOpt (o : option string) : bool :=
  match o with Some s => truthy s | None => false end.

(** [Array.prototype.includes] on an array of strings. *)
Definition arrIncludes (a : list string) (x : string) : bool :=
  existsb (String.eqb x) a.

(** [a.filter(v => v !== x)] *)
Definition without (a : list string) (x : string) : list string :=
  filter (fun v => negb (String.eqb v x)) a.

(** [maxLength && s.length > maxLength]: the guard every handler uses.
    [undefined] and [0] are falsy. *)
Definition tooLong (maxLength : option Z) (s : string) : bool :=
  match maxLength with
  | None => false
  | Some m => negb (m =? 0)%Z && (Z.of_nat (length s) >? m)%Z
  end.

End JS.

(** ** Children

    The containers look at their children with [React.Children.toArray],
    [React.isValidElement] and [child.type === SelectContent]. An option
    is a [SelectItem] element; its [children] prop is either a plain
    string or some other node (an element, a number, a fragment). *)

Inductive ReactNode :=
| PlainText (s : string)
| RichContent.

Module SelectItem.

Record Props := { value : string; children : ReactNode }.

(** [typeof child.props.children === 'string' ? child.props.children
    : child.props.value] *)
Definition label (i : Props) : string :=
  match children i with
  | PlainText s => s
  | RichContent => value i
  end.

End SelectItem.

(** A child of [SelectContent]: a [SelectItem] element, or a node for
    which [React.isValidElement] is false (a string, a number). *)
Inductive Child :=
| Element (i : SelectItem.Props)
| Node.

(** A child of [Select] / [MultiSelect]. *)
Inductive TopChild :=
| SelectTriggerEl
| SelectContentEl (items : list Child)
| OtherChild.

(** [React.Children.toArray(children).find(c => React.isValidElement(c)
    && c.type === SelectContent)], returning [props.children] of the
    element found. *)
Fixpoint findSelectContent (cs : list TopChild) : option (list Child) :=
  match cs with
  | [] => None
  | SelectContentEl items :: _ => Some items
  | _ :: cs' => findSelectContent cs'
  end.

(** [label.toLowerCase().includes(text.toLowerCase())] *)
Definition labelMatches (text : string) (i : SelectItem.Props) : bool :=
  JS.includes (JS.toLowerCase (SelectItem.label i)) (JS.toLowerCase text).

(** The callback of [.filter] in both [filteredChildren]: a child that is
    not an element is kept. *)
Definition keepChild (text : string) (c : Child) : bool :=
  match c with
  | Element i => labelMatches text i
  | Node => true
  end.

(** The callback of [.some] in both [handleKeyDown]: a child that is not
    an element never matches. *)
Definition childMatches (text : string) (c : Child) : bool :=
  match c with
  | Element i => labelMatches text i
  | Node => false
  end.

Definition hasMatch (items : list Child) (text : string) : bool :=
  existsb (childMatches text) items.

(** ** Handlers as state transformers

    [UI] is the pair of [useState] cells of a container. A handler starts
    from the snapshot of its render and transforms a [Run]: the state the
    next render will see, and the callbacks invoked so far. *)

Record UI := { internalOpen : bool; inputValue : string }.

Section Effects.

(** [V] is the type of the controlled value: [string] for [Select],
    [string[]] for [MultiSelect]. *)
Context {V : Type}.

Inductive Call :=
| OnValueChange (v : V)
| OnCreateOption (s : string)
| OnOpenChange (b : bool).

Record Run := { ui : UI; calls : list Call }.

Definition Handler := Run -> Run.

Definition skip : Handler := fun r => r.

Definition seq (a b : Handler) : Handler := fun r => b (a r).

Definition setInternalOpen (b : bool) : Handler := fun r =>
  {| ui := {| internalOpen := b; inputValue := inputValue (ui r) |};
     calls := calls r |}.

Definition setInputValue (s : string) : Handler := fun r =>
  {| ui := {| internalOpen := internalOpen (ui r); inputValue := s |};
     calls := calls r |}.

Definition invoke (c : Call) : Handler := fun r =>
  {| ui := ui r; calls := calls r ++ [c] |}.

(** [f?.(x)]: the call happens only when the optional prop was given. *)
Definition invokeOpt (supplied : bool) (c : Call) : Handler :=
  if supplied then invoke c else skip.

(** Runs a handler created by the render whose state is [w]. *)
Definition run (h : Handler) (w : UI) : Run := h {| ui := w; calls := [] |}.

End Effects.

Arguments Call : clear implicits.
Arguments Run : clear implicits.
Arguments Handler : clear implicits.

Notation "a ;; b" := (seq a b) (at level 61, right associativity).

(** [SelectItem]'s [handleClick]: the toggle callback wins over the
    change callback; with neither injected the click does nothing. *)
Definition SelectItem_handleClick {V : Type} (i : SelectItem.Props)
    (onValueChange onToggleValue : option (string -> Handler V)) : Handler V :=
  match onToggleValue with
  | Some toggle => toggle (SelectItem.value i)
  | None =>
      match onValueChange with
      | Some change => change (SelectItem.value i)
      | None => skip
      end
  end.

(** [filteredChildren] of [SelectContent]: the filter applies only for a
    truthy [filterValue]. *)
Definition SelectContent_filteredChildren
    (children : list Child) (filterValue : option string) : list Child :=
  match filterValue with
  | Some text =>
      if JS.truthy text then filter (keepChild text) children else children
  | None => children
  end.

(** ** Select *)

Module Select.

(** The props the handlers read. [onOpenChange] and [onCreateOption]
    are optional callbacks: the field says whether one was supplied.
    [onValueChange] is required. *)
Record Props := {
  children : list TopChild;
  value : string;
  disabled : bool;
  onOpenChange : bool;
  defaultOpen : bool;
  creatable : bool;
  onCreateOption : bool;
  maxLength : option Z
}.

(** [useState(defaultOpen)], [useState('')] *)
Definition initial (p : Props) : UI :=
  {| internalOpen := defaultOpen p; inputValue := "" |}.

Definition handleOpenChange (p : Props) (open : bool) : Handler string :=
  if disabled p then skip
  else
    setInternalOpen open ;;
    invokeOpt (onOpenChange p) (OnOpenChange open) ;;
    (if negb open then setInputValue "" else skip).

Definition handleValueChange (p : Props) (newValue : string) : Handler string :=
  if JS.tooLong (maxLength p) newValue then skip
  else
    invoke (OnValueChange newValue) ;;
    handleOpenChange p false ;;
    setInputValue "".

Definition handleInputChange (p : Props) (w : UI) (newInputValue : string)
  : Handler string :=
  if JS.tooLong (maxLength p) newInputValue then skip
  else
    setInputValue newInputValue ;;
    (if negb (internalOpen w) then handleOpenChange p true else skip).

Definition handleCreateValue (p : Props) (w : UI) : Handler string :=
  let trimmedValue := JS.trim (inputValue w) in
  if JS.truthy trimmedValue then
    if JS.tooLong (maxLength p) trimmedValue then skip
    else
      invokeOpt (onCreateOption p) (OnCreateOption trimmedValue) ;;
      handleValueChange p trimmedValue
  else skip.

Definition handleKeyDown (p : Props) (w : UI) (key : string) : Handler string :=
  if negb (creatable p) || negb (JS.truthy (JS.trim (inputValue w))) then skip
  else if String.eqb key "Enter" then
    match findSelectContent (children p) with
    | Some items =>
        if hasMatch items (inputValue w) then skip else handleCreateValue p w
    | None => skip
    end
  else skip.

(** The listener of the effect: the target is outside the root. *)
Definition handleClickOutside (p : Props) : Handler string :=
  handleOpenChange p false.

(** [onToggle: () => handleOpenChange(!isOpen)] *)
Definition onToggle (p : Props) (w : UI) : Handler string :=
  handleOpenChange p (negb (internalOpen w)).

(** [filterValue: creatable ? inputValue : undefined] *)
Definition filterValue (p : Props) (w : UI) : option string :=
  if creatable p then Some (inputValue w) else None.

(** The rows [SelectContent] renders for this container. *)
Definition filteredChildren (p : Props) (w : UI) : list Child :=
  match findSelectContent (children p) with
  | Some items => SelectContent_filteredChildren items (filterValue p w)
  | None => []
  end.

Definition hasTrigger (p : Props) : bool :=
  existsb (fun c => match c with SelectTriggerEl => true | _ => false end)
          (children p).

(** What the user can do to the rendered tree. *)
Inductive Event :=
| TriggerClick
| InputChange (text : string)
| KeyDown (key : string)
| ItemClick (row : nat)
| CreateRowClick
| OutsideMouseDown.

(** The handler an event reaches. *)
Definition dispatch (p : Props) (w : UI) (e : Event) : Handler string :=
  match e with
  | TriggerClick => onToggle p w
  | InputChange text => handleInputChange p w text
  | KeyDown key => handleKeyDown p w key
  | ItemClick row =>
      match nth_error (filteredChildren p w) row with
      | Some (Element i) =>
          SelectItem_handleClick i (Some (handleValueChange p)) None
      | _ => skip
      end
  | CreateRowClick => handleCreateValue p w
  | OutsideMouseDown => handleClickOutside p
  end.

(** Whether the element carrying the listener is rendered and can fire:
    the text field exists only in creatable mode and carries
    [disabled]; the plain trigger is a button carrying [disabled];
    [SelectContent] renders nothing while closed; the create row needs
    an empty result list, [creatable] and a truthy [filterValue]; the
    document listener is attached only while open. An edit may carry
    any text: the native [maxlength] attribute the field also receives
    is not modelled, the handlers have their own guard. *)
Definition enabled (p : Props) (w : UI) (e : Event) : bool :=
  match e with
  | TriggerClick => hasTrigger p && (creatable p || negb (disabled p))
  | InputChange _ | KeyDown _ =>
      hasTrigger p && creatable p && negb (disabled p)
  | ItemClick row =>
      internalOpen w &&
      match nth_error (filteredChildren p w) row with
      | Some (Element _) => true
      | _ => false
      end
  | CreateRowClick =>
      internalOpen w &&
      match findSelectContent (children p) with
      | Some _ =>
          match filteredChildren p w with [] => true | _ => false end
          && creatable p && JS.truthyOpt (filterValue p w)
      | None => false
      end
  | OutsideMouseDown => internalOpen w
  end.

Definition step (p : Props) (w : UI) (e : Event) : option (Run string) :=
  if enabled p w e then Some (run (dispatch p w e) w) else None.

(** The caller owns [value]: a render may come with any string. *)
Definition withValue (p : Props) (v : string) : Props :=
  {| children := children p; value := v; disabled := disabled p;
     onOpenChange := onOpenChange p; defaultOpen := defaultOpen p;
     creatable := creatable p; onCreateOption := onCreateOption p;
     maxLength := maxLength p |}.

(** The states a mounted container goes through. *)
Inductive reachable (p : Props) : UI -> Prop :=
| reach_initial : reachable p (initial p)
| reach_step v w e r :
    reachable p w ->
    step (withValue p v) w e = Some r ->
    reachable p (ui r).

(** The same configuration with another [maxLength]. *)
Definition withMaxLength (p : Props) (m : option Z) : Props :=
  {| children := children p; value := value p; disabled := disabled p;
     onOpenChange := onOpenChange p; defaultOpen := defaultOpen p;
     creatable := creatable p; onCreateOption := onCreateOption p;
     maxLength := m |}.

End Select.

(** ** MultiSelect *)

Module MultiSelect.

Record Props := {
  children : list TopChild;
  value : list string;
  disabled : bool;
  onOpenChange : bool;
  defaultOpen : bool;
  creatable : bool;
  onCreateOption : bool;
  maxLength : option Z
}.

Definition initial (p : Props) : UI :=
  {| internalOpen := defaultOpen p; inputValue := "" |}.

Definition handleOpenChange (p : Props) (open : bool) : Handler (list string) :=
  if disabled p then skip
  else
    setInternalOpen open ;;
    invokeOpt (onOpenChange p) (OnOpenChange open) ;;
    (if negb open then setInputValue "" else skip).

(** The array [handleToggleValue] hands to [onValueChange]. *)
Definition toggled (value : list string) (selectedValue : string) : list string :=
  if JS.arrIncludes value selectedValue
  then JS.without value selectedValue
  else value ++ [selectedValue].

Definition handleToggleValue (p : Props) (selectedValue : string)
  : Handler (list string) :=
  let newValue := toggled (value p) selectedValue in
  invoke (OnValueChange newValue) ;;
  setInputValue "".

Definition handleRemoveValue (p : Props) (selectedValue : string)
  : Handler (list string) :=
  invoke (OnValueChange (JS.without (value p) selectedValue)).

Definition handleCreateValue (p : Props) (w : UI) : Handler (list string) :=
  let trimmedValue := JS.trim (inputValue w) in
  if JS.truthy trimmedValue && negb (JS.arrIncludes (value p) trimmedValue) then
    if JS.tooLong (maxLength p) trimmedValue then skip
    else
      invokeOpt (onCreateOption p) (OnCreateOption trimmedValue) ;;
      invoke (OnValueChange (value p ++ [trimmedValue])) ;;
      setInputValue ""
  else skip.

Definition handleInputChange (p : Props) (newValue : string)
  : Handler (list string) :=
  if JS.tooLong (maxLength p) newValue then skip
  else setInputValue newValue.

Definition handleKeyDown (p : Props) (w : UI) (key : string)
  : Handler (list string) :=
  if negb (creatable p) || negb (JS.truthy (JS.trim (inputValue w))) then skip
  else if String.eqb key "Enter" then
    match findSelectContent (children p) with
    | Some items =>
        if hasMatch items (inputValue w) then skip else handleCreateValue p w
    | None => skip
    end
  else skip.

Definition handleClickOutside (p : Props) : Handler (list string) :=
  handleOpenChange p false.

Definition handleContainerClick (p : Props) (w : UI) : Handler (list string) :=
  if negb (internalOpen w) then handleOpenChange p true else skip.

(** [onFocus] of the text field. *)
Definition handleFocus (p : Props) (w : UI) : Handler (list string) :=
  if negb (internalOpen w) then handleOpenChange p true else skip.

Definition handleClearAll (p : Props) : Handler (list string) :=
  invoke (OnValueChange []).

(** [inputValue && selectContent ? items.filter(...) : selectContent ?
    items : []] *)
Definition filteredChildren (p : Props) (w : UI) : list Child :=
  match findSelectContent (children p) with
  | Some items =>
      if JS.truthy (inputValue w)
      then filter (keepChild (inputValue w)) items
      else items
  | None => []
  end.

Inductive Event :=
| ContainerClick
| InputChange (text : string)
| KeyDown (key : string)
| InputFocus
| ItemClick (row : nat)
| RemoveClick (v : string)
| ClearAllClick
| CreateRowClick
| OutsideMouseDown.

Definition dispatch (p : Props) (w : UI) (e : Event) : Handler (list string) :=
  match e with
  | ContainerClick => handleContainerClick p w
  | InputChange text => handleInputChange p text
  | KeyDown key => handleKeyDown p w key
  | InputFocus => handleFocus p w
  | ItemClick row =>
      match nth_error (filteredChildren p w) row with
      | Some (Element i) =>
          SelectItem_handleClick i None (Some (handleToggleValue p))
      | _ => skip
      end
  | RemoveClick v => handleRemoveValue p v
  | ClearAllClick => handleClearAll p
  | CreateRowClick => handleCreateValue p w
  | OutsideMouseDown => handleClickOutside p
  end.

(** The text field is rendered only in creatable mode and carries
    [disabled]; a chip exists per selected value; the clear icon needs
    a non-empty array; the list is rendered while open and a
    [SelectContent] child exists; the create row needs no result,
    [creatable], a truthy trimmed text that is not yet selected. *)
Definition enabled (p : Props) (w : UI) (e : Event) : bool :=
  match e with
  | ContainerClick => true
  | InputChange _ | KeyDown _ | InputFocus =>
      creatable p && negb (disabled p)
  | ItemClick row =>
      internalOpen w &&
      match nth_error (filteredChildren p w) row with
      | Some (Element _) => true
      | _ => false
      end
  | RemoveClick v => JS.arrIncludes (value p) v
  | ClearAllClick => negb (Nat.eqb (List.length (value p)) 0)
  | CreateRowClick =>
      internalOpen w &&
      match findSelectContent (children p) with
      | Some _ =>
          match filteredChildren p w with [] => true | _ => false end
          && creatable p
          && JS.truthy (JS.trim (inputValue w))
          && negb (JS.arrIncludes (value p) (JS.trim (inputValue w)))
      | None => false
      end
  | OutsideMouseDown => internalOpen w
  end.

Definition step (p : Props) (w : UI) (e : Event) : option (Run (list string)) :=
  if enabled p w e then Some (run (dispatch p w e) w) else None.

(** The caller owns [value]: a render may come with any array. *)
Definition withValue (p : Props) (v : list string) : Props :=
  {| children := children p; value := v; disabled := disabled p;
     onOpenChange := onOpenChange p; defaultOpen := defaultOpen p;
     creatable := creatable p; onCreateOption := onCreateOption p;
     maxLength := maxLength p |}.

Definition withMaxLength (p : Props) (m : option Z) : Props :=
  {| children := children p; value := value p; disabled := disabled p;
     onOpenChange := onOpenChange p; defaultOpen := defaultOpen p;
     creatable := creatable p; onCreateOption := onCreateOption p;
     maxLength := m |}.

(** The states a mounted container goes through. *)
Inductive reachable (p : Props) : UI -> Prop :=
| reach_initial : reachable p (initial p)
| reach_step v w e r :
    reachable p w ->
    step (withValue p v) w e = Some r ->
    reachable p (ui r).

End MultiSelect.

(** ** The containers of [SelectDemo]

    Concrete instances, as the demo page declares them; the examples and
    the refutations below are evaluated on them. *)

Module Demo.

Definition item (value label : string) : Child :=
  Element {| SelectItem.value := value; SelectItem.children := PlainText label |}.

Definition frameworkItems : list Child :=
  [item "next" "Next.js"; item "react" "React"; item "vue" "Vue";
   item "svelte" "Svelte"; item "angular" "Angular"].

Definition colorItems : list Child :=
  [item "red" "Red"; item "blue" "Blue"; item "green" "Green"].

Definition customItems : list Child :=
  map (fun opt => item opt opt) ["Option 1"; "Option 2"; "Option 3"].

Definition tagItems : list Child :=
  map (fun tag => item tag tag)
      ["react"; "typescript"; "javascript"; "python"; "go"].

(** [<Select value={framework} onValueChange={setFramework} ...>] *)
Definition framework (value : string) : Select.Props :=
  {| Select.children := [SelectTriggerEl; SelectContentEl frameworkItems];
     Select.value := value; Select.disabled := false;
     Select.onOpenChange := false; Select.defaultOpen := false;
     Select.creatable := false; Select.onCreateOption := false;
     Select.maxLength := None |}.

(** The creatable [Select] with [maxLength={20}]. *)
Definition custom (value : string) : Select.Props :=
  {| Select.children := [SelectTriggerEl; SelectContentEl customItems];
     Select.value := value; Select.disabled := false;
     Select.onOpenChange := false; Select.defaultOpen := false;
     Select.creatable := true; Select.onCreateOption := true;
     Select.maxLength := Some 20%Z |}.

(** [<Select value="blue" onValueChange={() => {}} defaultOpen={true}>],
    with the [disabled] flag as a parameter. *)
Definition color (disabled : bool) : Select.Props :=
  {| Select.children := [SelectTriggerEl; SelectContentEl colorItems];
     Select.value := "blue"; Select.disabled := disabled;
     Select.onOpenChange := false; Select.defaultOpen := true;
     Select.creatable := false; Select.onCreateOption := false;
     Select.maxLength := None |}.

(** [<MultiSelect value={frameworks} onValueChange={setFrameworks} ...>],
    with [creatable] as a parameter. *)
Definition frameworks (creatable : bool) (value : list string)
  : MultiSelect.Props :=
  {| MultiSelect.children := [SelectContentEl frameworkItems];
     MultiSelect.value := value; MultiSelect.disabled := false;
     MultiSelect.onOpenChange := false; MultiSelect.defaultOpen := false;
     MultiSelect.creatable := creatable; MultiSelect.onCreateOption := false;
     MultiSelect.maxLength := None |}.

(** The creatable [MultiSelect] with [maxLength={15}]. *)
Definition tags (value : list string) : MultiSelect.Props :=
  {| MultiSelect.children := [SelectContentEl tagItems];
     MultiSelect.value := value; MultiSelect.disabled := false;
     MultiSelect.onOpenChange := false; MultiSelect.defaultOpen := false;
     MultiSelect.creatable := true; MultiSelect.onCreateOption := true;
     MultiSelect.maxLength := Some 15%Z |}.


(** An option whose value has 34 code units, and the two creatable
    containers of the demo offering it as their only option. *)
Definition longValue : string := "a-value-of-more-than-20-code-units".

Definition customLong (value : string) : Select.Props :=
  {| Select.children := [SelectTriggerEl; SelectContentEl [item longValue "Long"]];
     Select.value := value; Select.disabled := false;
     Select.onOpenChange := false; Select.defaultOpen := false;
     Select.creatable := true; Select.onCreateOption := true;
     Select.maxLength := Some 20%Z |}.

Definition tagsLong (value : list string) : MultiSelect.Props :=
  {| MultiSelect.children := [SelectContentEl [item longValue "Long"]];
     MultiSelect.value := value; MultiSelect.disabled := false;
     MultiSelect.onOpenChange := false; MultiSelect.defaultOpen := false;
     MultiSelect.creatable := true; MultiSelect.onCreateOption := true;
     MultiSelect.maxLength := Some 15%Z |}.


(** The tag field of the demo once [disabled] is set. *)
Definition tagsDisabled (value : list string) : MultiSelect.Props :=
  {| MultiSelect.children := [SelectContentEl tagItems];
     MultiSelect.value := value; MultiSelect.disabled := true;
     MultiSelect.onOpenChange := false; MultiSelect.defaultOpen := false;
     MultiSelect.creatable := true; MultiSelect.onCreateOption := true;
     MultiSelect.maxLength := Some 15%Z |}.

(** Three options that tell a label from a value: a plain label that
    does not contain its value, a label that is not plain text, and a
    plain label over a value another text would match. *)
Definition mixedItems : list Child :=
  [item "fw-1" "React";
   Element {| SelectItem.value := "preact"; SelectItem.children := RichContent |};
   item "re" "Vue"].

(** A creatable [Select] with a trigger and no [SelectContent]. *)
Definition bare : Select.Props :=
  {| Select.children := [SelectTriggerEl];
     Select.value := ""; Select.disabled := false;
     Select.onOpenChange := false; Select.defaultOpen := false;
     Select.creatable := true; Select.onCreateOption := true;
     Select.maxLength := None |}.

Definition closed (text : string) : UI :=
  {| internalOpen := false; inputValue := text |}.

Definition opened (text : string) : UI :=
  {| internalOpen := true; inputValue := text |}.

End Demo.

(** ** Outcomes *)

(** The outcome of a handler that returns before doing anything. *)
Definition idle {V : Type} (w : UI) : Run V := {| ui := w; calls := [] |}.

(** What [f?.(x)] adds to the trace. *)
Definition optCall {V : Type} (supplied : bool) (c : Call V) : list (Call V) :=
  if supplied then [c] else [].

(** The outcome of a commit in [Select]: the callback, then the close
    request, which the [disabled] guard swallows, then the cleared text. *)
Definition Select_committed (p : Select.Props) (w : UI) (v : string)
  : Run string :=
  {| ui := {| internalOpen := if Select.disabled p then internalOpen w else false;
              inputValue := "" |};
     calls := OnValueChange v ::
              (if Select.disabled p then []
               else optCall (Select.onOpenChange p) (OnOpenChange false)) |}.

(** The outcome of a creation in [MultiSelect]: both callbacks, the text
    cleared, the open flag not written. *)
Definition MultiSelect_created (p : MultiSelect.Props) (w : UI) (t : string)
  : Run (list string) :=
  {| ui := {| internalOpen := internalOpen w; inputValue := "" |};
     calls := optCall (MultiSelect.onCreateOption p) (OnCreateOption t)
              ++ [OnValueChange (MultiSelect.value p ++ [t])] |}.

(** ** What is rendered

    The parts of the render functions that decide what the user sees:
    the check mark of an item, the label in the trigger, the text in the
    trigger's field, the chips, and the informational rows under the
    list. *)

(** [selectedValues ? selectedValues.includes(value) : value ===
    selectedValue] of [SelectItem]; an array is truthy even when empty,
    and no string is [=== undefined]. *)
Definition SelectItem_isSelected (i : SelectItem.Props)
    (selectedValue : option string) (selectedValues : option (list string))
  : bool :=
  match selectedValues with
  | Some vs => JS.arrIncludes vs (SelectItem.value i)
  | None =>
      match selectedValue with
      | Some v => String.eqb (SelectItem.value i) v
      | None => false
      end
  end.

(** [React.Children.toArray(children).find(child =>
    React.isValidElement(child) && child.props.value === value)] *)
Fixpoint findItem (items : list Child) (value : string)
  : option SelectItem.Props :=
  match items with
  | [] => None
  | Element i :: rest =>
      if String.eqb (SelectItem.value i) value then Some i
      else findItem rest value
  | Node :: rest => findItem rest value
  end.

(** What the button of [SelectTrigger] shows: its own children (the
    placeholder), or the children of the selected item. *)
Inductive Display :=
| OwnChildren
| ItemChildren (n : ReactNode).

(** [displayText] of [SelectTrigger]; [contentChildren] is
    [selectContent?.props.children]. *)
Definition SelectTrigger_displayText
    (value : string) (contentChildren : option (list Child)) : Display :=
  if JS.truthy value then
    match contentChildren with
    | Some items =>
        match findItem items value with
        | Some i => ItemChildren (SelectItem.children i)
        | None => OwnChildren
        end
    | None => OwnChildren
    end
  else OwnChildren.

(** [value={isOpen ? inputValue : (value || '')}] of the trigger's text
    field. *)
Definition SelectTrigger_inputText (isOpen : bool) (inputValue value : string)
  : string :=
  if isOpen then inputValue else value.

(** The label the button of this [Select] shows. *)
Definition Select_displayText (p : Select.Props) : Display :=
  SelectTrigger_displayText (Select.value p)
                            (findSelectContent (Select.children p)).

(** What [SelectTrigger] returns: in creatable mode a text field, else a
    button around [displayText]. *)
Inductive TriggerView :=
| Field (text : string)
| Button (label : Display).

Definition SelectTrigger_view
    (creatable isOpen : bool) (inputValue value : string)
    (contentChildren : option (list Child)) : TriggerView :=
  if creatable then Field (SelectTrigger_inputText isOpen inputValue value)
  else Button (SelectTrigger_displayText value contentChildren).

(** The trigger of this [Select] in this state. *)
Definition Select_trigger (p : Select.Props) (w : UI) : TriggerView :=
  SelectTrigger_view (Select.creatable p) (internalOpen w) (inputValue w)
                     (Select.value p)
                     (findSelectContent (Select.children p)).

(** [getItemLabel] of [MultiSelect]: the label of a chip. *)
Definition MultiSelect_getItemLabel (p : MultiSelect.Props) (itemValue : string)
  : ReactNode :=
  match findSelectContent (MultiSelect.children p) with
  | None => PlainText itemValue
  | Some items =>
      match findItem items itemValue with
      | Some i => SelectItem.children i
      | None => PlainText itemValue
      end
  end.

(** The informational rows under the list. *)
Inductive InfoRow :=
| NoOptionsFound
| CreateRow (text : string)
| NoOptionsAvailable.

(** The three conditional rows of [SelectContent], in source order.
    [children] is [React.Children.toArray(children)] and [count] is
    [React.Children.count(children)], as React computes it: it is 0 when
    [children] is [null], [undefined] or an empty array, and otherwise
    counts every node of the array, the empty ones ([null], [false])
    that [toArray] drops included. *)
Definition SelectContent_infoRows
    (children : list Child) (count : nat)
    (filterValue : option string) (creatable : bool) : list InfoRow :=
  let hasResults :=
    negb (Nat.eqb (List.length (SelectContent_filteredChildren children filterValue)) 0) in
  (if negb hasResults && negb creatable && JS.truthyOpt filterValue
   then [NoOptionsFound] else [])
  ++ (if negb hasResults && creatable && JS.truthyOpt filterValue
      then match filterValue with Some text => [CreateRow text] | None => [] end
      else [])
  ++ (if negb hasResults && negb (JS.truthyOpt filterValue)
         && Nat.eqb count 0
      then [NoOptionsAvailable] else []).

(** The rows of the [SelectContent] of a [Select]; a closed content
    renders nothing. *)
Definition Select_infoRows (p : Select.Props) (w : UI) (count : nat)
  : list InfoRow :=
  if internalOpen w then
    match findSelectContent (Select.children p) with
    | Some items =>
        SelectContent_infoRows items count (Select.filterValue p w)
                               (Select.creatable p)
    | None => []
    end
  else [].

(** The two conditional rows of the list [MultiSelect] renders itself. *)
Definition MultiSelect_infoRows (p : MultiSelect.Props) (w : UI) : list InfoRow :=
  if internalOpen w then
    match findSelectContent (MultiSelect.children p) with
    | Some _ =>
        let hasFilteredResults :=
          negb (Nat.eqb (List.length (MultiSelect.filteredChildren p w)) 0) in
        (if negb hasFilteredResults && negb (MultiSelect.creatable p)
            && JS.truthy (inputValue w)
         then [NoOptionsFound] else [])
        ++ (if negb hasFilteredResults && MultiSelect.creatable p
               && JS.truthy (JS.trim (inputValue w))
               && negb (JS.arrIncludes (MultiSelect.value p)
                                       (JS.trim (inputValue w)))
            then [CreateRow (JS.trim (inputValue w))] else [])
    | None => []
    end
  else [].

(** ** The caller

    The demo page passes a state setter as [onValueChange]: the value of
    the next render is the last one the callback received. *)
Definition stored {V : Type} (current : V) (trace : list (Call V)) : V :=
  fold_left (fun v c => match c with OnValueChange v' => v' | _ => v end)
            trace current.

(** The arguments of the [onValueChange] invocations of a trace. *)
Definition valueChanges {V : Type} (trace : list (Call V)) : list V :=
  flat_map (fun c => match c with OnValueChange v => [v] | _ => [] end) trace.

(** The arguments of the [onOpenChange] invocations of a trace. *)
Definition openChanges {V : Type} (trace : list (Call V)) : list bool :=
  flat_map (fun c => match c with OnOpenChange b => [b] | _ => [] end) trace.

(** The arguments of the [onCreateOption] invocations of a trace. *)
Definition createdOptions {V : Type} (trace : list (Call V)) : list string :=
  flat_map (fun c => match c with OnCreateOption t => [t] | _ => [] end) trace.

(** ** Executing handlers *)

Ltac exec :=
  unfold run, idle, optCall, seq, skip, invokeOpt, invoke,
         setInternalOpen, setInputValue; cbn.

Ltac exec_select :=
  unfold Select.dispatch, SelectItem_handleClick, Select.handleClickOutside,
         Select.onToggle, Select.handleKeyDown, Select.handleCreateValue,
         Select.handleInputChange, Select.handleValueChange,
         Select.handleOpenChange; exec.

Ltac exec_multi :=
  unfold MultiSelect.dispatch, SelectItem_handleClick,
         MultiSelect.handleClickOutside, MultiSelect.handleContainerClick,
         MultiSelect.handleFocus, MultiSelect.handleClearAll,
         MultiSelect.handleKeyDown, MultiSelect.handleCreateValue,
         MultiSelect.handleInputChange, MultiSelect.handleRemoveValue,
         MultiSelect.handleToggleValue, MultiSelect.handleOpenChange; exec.

Ltac case_flags :=
  repeat match goal with
         | |- context [if ?b then _ else _] => destruct b eqn:?
         | |- context [match findSelectContent ?c with _ => _ end] =>
             destruct (findSelectContent c) eqn:?
         | |- context [match nth_error ?l ?n with _ => _ end] =>
             destruct (nth_error l n) as [[?|]|] eqn:?
         end.

(** Case analysis on the membership of a call in a computed trace. *)
Ltac in_calls H :=
  cbn in H; repeat destruct H as [H | H]; try discriminate H;
  try contradiction.

Example trim_ex : JS.trim "  re act  " = "re act". Proof. reflexivity. Qed.
Example trim_ws : JS.trim "   " = "". Proof. reflexivity. Qed.
Example lower_ex : JS.toLowerCase "React" = "react". Proof. reflexivity. Qed.
Example incl_ex : JS.includes "react" "re" = true /\ JS.includes "vue" "re" = false.
Proof. split; reflexivity. Qed.

Lemma ui_eta (w : UI) :
  {| internalOpen := internalOpen w; inputValue := inputValue w |} = w.
Proof. destruct w; reflexivity. Qed.

(** *** The guard *)

(** The guard fires on every text longer than a positive bound. *)
Lemma tooLong_positive (m : Z) (text : string) :
  (0 < m)%Z -> (m < Z.of_nat (length text))%Z ->
  JS.tooLong (Some m) text = true.
Proof.
  intros Hm Hlen. unfold JS.tooLong.
  destruct (Z.eqb_spec m 0); [lia|]. cbn.
  apply Z.gtb_lt. exact Hlen.
Qed.

Lemma tooLong_zero (text : string) : JS.tooLong (Some 0%Z) text = false.
Proof. reflexivity. Qed.

(** A text the guard lets through lets every shorter text through. *)
Lemma tooLong_shorter (m : option Z) (s t : string) :
  (length t <= length s)%nat ->
  JS.tooLong m s = false -> JS.tooLong m t = false.
Proof.
  intros Hlen. destruct m as [m|]; [|reflexivity]. unfold JS.tooLong.
  destruct (Z.eqb_spec m 0); [reflexivity|]. cbn.
  rewrite !Z.gtb_ltb, !Z.ltb_ge. lia.
Qed.

Lemma trimStart_length (s : string) : (length (JS.trimStart s) <= length s)%nat.
Proof.
  induction s as [|c s IH]; cbn; [lia|].
  destruct (JS.isWhiteSpace c); cbn; lia.
Qed.

Lemma trimEnd_length (s : string) : (length (JS.trimEnd s) <= length s)%nat.
Proof.
  induction s as [|c s IH]; cbn; [lia|].
  destruct (JS.trimEnd s); [destruct (JS.isWhiteSpace c)|]; cbn in *; lia.
Qed.

Lemma trim_length (s : string) : (length (JS.trim s) <= length s)%nat.
Proof.
  unfold JS.trim.
  pose proof (trimEnd_length (JS.trimStart s)).
  pose proof (trimStart_length s). lia.
Qed.

Lemma truthy_nonempty (s : string) : JS.truthy s = true <-> s <> "".
Proof. destruct s; cbn; split; congruence. Qed.

Lemma trim_truthy (s : string) :
  JS.truthy (JS.trim s) = true -> s <> "".
Proof. intros H ->. discriminate. Qed.

(** *** What each handler leaves behind *)

Lemma Select_handleOpenChange_run (p : Select.Props) (w : UI) (open : bool) :
  run (Select.handleOpenChange p open) w =
    if Select.disabled p then idle w
    else {| ui := {| internalOpen := open;
                     inputValue := if open then inputValue w else "" |};
            calls := optCall (Select.onOpenChange p) (OnOpenChange open) |}.
Proof.
  unfold Select.handleOpenChange.
  destruct (Select.disabled p), (Select.onOpenChange p), open; reflexivity.
Qed.

Lemma MultiSelect_handleOpenChange_run (p : MultiSelect.Props) (w : UI)
    (open : bool) :
  run (MultiSelect.handleOpenChange p open) w =
    if MultiSelect.disabled p then idle w
    else {| ui := {| internalOpen := open;
                     inputValue := if open then inputValue w else "" |};
            calls := optCall (MultiSelect.onOpenChange p) (OnOpenChange open) |}.
Proof.
  unfold MultiSelect.handleOpenChange.
  destruct (MultiSelect.disabled p), (MultiSelect.onOpenChange p), open;
    reflexivity.
Qed.

Lemma Select_handleValueChange_run (p : Select.Props) (w : UI) (v : string)
    (before : list (Call string)) :
  JS.tooLong (Select.maxLength p) v = false ->
  Select.handleValueChange p v {| ui := w; calls := before |} =
    {| ui := ui (Select_committed p w v);
       calls := before ++ calls (Select_committed p w v) |}.
Proof.
  intros G.
  unfold Select.handleValueChange, Select.handleOpenChange, Select_committed.
  rewrite G.
  destruct (Select.disabled p), (Select.onOpenChange p); exec;
    rewrite <- ?app_assoc; reflexivity.
Qed.

Lemma Select_handleCreateValue_run (p : Select.Props) (w : UI) :
  JS.truthy (JS.trim (inputValue w)) = true ->
  run (Select.handleCreateValue p w) w =
    let t := JS.trim (inputValue w) in
    if JS.tooLong (Select.maxLength p) t then idle w
    else {| ui := ui (Select_committed p w t);
            calls := optCall (Select.onCreateOption p) (OnCreateOption t)
                     ++ calls (Select_committed p w t) |}.
Proof.
  intros Ht. unfold Select.handleCreateValue. cbv zeta. rewrite Ht.
  destruct (JS.tooLong _ _) eqn:G; [reflexivity|].
  unfold run, seq, invokeOpt.
  destruct (Select.onCreateOption p); cbn [optCall];
    unfold invoke, skip; cbn [ui calls app];
    rewrite (Select_handleValueChange_run p w _ _ G); reflexivity.
Qed.

Lemma MultiSelect_handleCreateValue_run (p : MultiSelect.Props) (w : UI) :
  JS.truthy (JS.trim (inputValue w)) = true ->
  run (MultiSelect.handleCreateValue p w) w =
    let t := JS.trim (inputValue w) in
    if JS.arrIncludes (MultiSelect.value p) t then idle w
    else if JS.tooLong (MultiSelect.maxLength p) t then idle w
    else MultiSelect_created p w t.
Proof.
  intros Ht. unfold MultiSelect.handleCreateValue. cbv zeta. rewrite Ht.
  destruct (JS.arrIncludes _ _); [reflexivity|]. cbn [negb andb].
  destruct (JS.tooLong _ _); [reflexivity|].
  unfold MultiSelect_created.
  destruct (MultiSelect.onCreateOption p); reflexivity.
Qed.

(** *** Invariants of the reachable states *)

(** The filter text after an event: kept, cleared, or the text of an
    edit that passed the guard. *)
Lemma Select_dispatch_input (p : Select.Props) (w : UI) (e : Select.Event) :
  let w' := ui (run (Select.dispatch p w e) w) in
  inputValue w' = inputValue w \/
  inputValue w' = "" \/
  exists text, e = Select.InputChange text /\
               JS.tooLong (Select.maxLength p) text = false /\
               inputValue w' = text.
Proof.
  destruct e; exec_select; case_flags; cbn; eauto.
  all: right; right; eexists; repeat split; eauto.
Qed.

Lemma MultiSelect_dispatch_input (p : MultiSelect.Props) (w : UI)
    (e : MultiSelect.Event) :
  let w' := ui (run (MultiSelect.dispatch p w e) w) in
  inputValue w' = inputValue w \/
  inputValue w' = "" \/
  exists text, e = MultiSelect.InputChange text /\
               JS.tooLong (MultiSelect.maxLength p) text = false /\
               inputValue w' = text.
Proof.
  destruct e; exec_multi; case_flags; cbn; eauto.
  all: right; right; eexists; repeat split; eauto.
Qed.

(** The filter text of a container never exceeds a non-zero
    [maxLength]: it is empty, or the guard lets it through. *)
Lemma Select_input_bounded (p : Select.Props) (w : UI) :
  Select.reachable p w ->
  inputValue w = "" \/ JS.tooLong (Select.maxLength p) (inputValue w) = false.
Proof.
  intros Hreach. induction Hreach as [|v w e r Hreach IH Hstep].
  - left. reflexivity.
  - unfold Select.step in Hstep.
    destruct (Select.enabled _ w e); [|discriminate]. injection Hstep as <-.
    destruct (Select_dispatch_input (Select.withValue p v) w e)
      as [E | [E | (text & _ & G & E)]]; rewrite E; auto.
Qed.

Lemma MultiSelect_input_bounded (p : MultiSelect.Props) (w : UI) :
  MultiSelect.reachable p w ->
  inputValue w = "" \/
  JS.tooLong (MultiSelect.maxLength p) (inputValue w) = false.
Proof.
  intros Hreach. induction Hreach as [|v w e r Hreach IH Hstep].
  - left. reflexivity.
  - unfold MultiSelect.step in Hstep.
    destruct (MultiSelect.enabled _ w e); [|discriminate]. injection Hstep as <-.
    destruct (MultiSelect_dispatch_input (MultiSelect.withValue p v) w e)
      as [E | [E | (text & _ & G & E)]]; rewrite E; auto.
Qed.

(** So the trimmed text of a reachable state always passes the guard of
    [handleCreateValue]. *)
Lemma trimmed_passes_guard (m : option Z) (text : string) :
  text = "" \/ JS.tooLong m text = false ->
  JS.truthy (JS.trim text) = true ->
  JS.tooLong m (JS.trim text) = false.
Proof.
  intros [-> | G] Ht; [discriminate|].
  exact (tooLong_shorter m text _ (trim_length text) G).
Qed.

(** The text field of a [MultiSelect] is rendered only in creatable
    mode: a non-creatable container never leaves the empty filter text. *)
Lemma multi_noncreatable_input (p : MultiSelect.Props) (w : UI) :
  MultiSelect.creatable p = false ->
  MultiSelect.reachable p w ->
  inputValue w = "".
Proof.
  intros Hc Hreach. induction Hreach as [|v w e r Hreach IH Hstep].
  - reflexivity.
  - unfold MultiSelect.step in Hstep.
    destruct (MultiSelect.enabled _ w e) eqn:En; [|discriminate].
    injection Hstep as <-.
    destruct (MultiSelect_dispatch_input (MultiSelect.withValue p v) w e)
      as [E | [E | (text & -> & _ & _)]].
    + rewrite E. exact IH.
    + exact E.
    + cbn in En. rewrite Hc in En. discriminate.
Qed.








(** ** The length guard *)

(** C1, refuted as stated: a value commit in [MultiSelect] is not
    length-checked. With [maxLength = 15], opening the list and clicking
    an option whose value has 34 code units calls [onValueChange] with
    that value appended: [handleToggleValue] never reads [maxLength]. *)
Lemma toggle_ignores_maxLength :
  let p := Demo.tagsLong ["react"] in
  MultiSelect.maxLength p = Some 15%Z /\
  (15 < Z.of_nat (length Demo.longValue))%Z /\
  MultiSelect.step p (MultiSelect.initial p) MultiSelect.ContainerClick
    = Some {| ui := Demo.opened ""; calls := [] |} /\
  MultiSelect.step p (Demo.opened "") (MultiSelect.ItemClick 0)
    = Some {| ui := Demo.opened "";
              calls := [OnValueChange ["react"; Demo.longValue]] |}.
Proof. repeat split. Qed.

(** C1, amended: with a positive [maxLength], a text longer than it makes
    every input edit and every creation of [Select] and [MultiSelect],
    and every value commit of [Select] (an item click included), return
    at once: no callback is invoked and neither state cell is written,
    so nothing is truncated and nothing is committed. (The toggle of
    [MultiSelect] is the one commit that is not checked.) *)
Theorem length_guard_rejects
    (ms mm : Z) (text : string)
    (sp : Select.Props) (mp : MultiSelect.Props) (w : UI) :
  Select.maxLength sp = Some ms ->
  MultiSelect.maxLength mp = Some mm ->
  (0 < ms)%Z -> (0 < mm)%Z ->
  (ms < Z.of_nat (length text))%Z ->
  (mm < Z.of_nat (length text))%Z ->
  (* Select: edit, commit, item click *)
  run (Select.handleInputChange sp w text) w = idle w /\
  run (Select.handleValueChange sp text) w = idle w /\
  (forall i, SelectItem.value i = text ->
     run (SelectItem_handleClick i (Some (Select.handleValueChange sp)) None) w
     = idle w) /\
  (* MultiSelect: edit *)
  run (MultiSelect.handleInputChange mp text) w = idle w /\
  (* creation, by the create row or by a key *)
  (JS.trim (inputValue w) = text ->
     run (Select.handleCreateValue sp w) w = idle w /\
     run (MultiSelect.handleCreateValue mp w) w = idle w /\
     forall key,
       run (Select.handleKeyDown sp w key) w = idle w /\
       run (MultiSelect.handleKeyDown mp w key) w = idle w).
Proof.
  intros Hs Hmp Hms Hmm Hlens Hlenm.
  pose proof (tooLong_positive ms text Hms Hlens) as Gs.
  pose proof (tooLong_positive mm text Hmm Hlenm) as Gm.
  refine (conj _ (conj _ (conj _ (conj _ _)))).
  - unfold Select.handleInputChange. rewrite Hs, Gs. reflexivity.
  - unfold Select.handleValueChange. rewrite Hs, Gs. reflexivity.
  - intros i Hi. cbn. rewrite Hi.
    unfold Select.handleValueChange. rewrite Hs, Gs. reflexivity.
  - unfold MultiSelect.handleInputChange. rewrite Hmp, Gm. reflexivity.
  - intros Htrim.
    assert (Cs : run (Select.handleCreateValue sp w) w = idle w).
    { unfold Select.handleCreateValue. cbv zeta. rewrite Htrim, Hs, Gs.
      destruct (JS.truthy text); reflexivity. }
    assert (Cm : run (MultiSelect.handleCreateValue mp w) w = idle w).
    { unfold MultiSelect.handleCreateValue. cbv zeta. rewrite Htrim, Hmp, Gm.
      destruct (JS.truthy text && _); reflexivity. }
    refine (conj Cs (conj Cm _)). intros key. split.
    + unfold Select.handleKeyDown. case_flags; solve [reflexivity | exact Cs].
    + unfold MultiSelect.handleKeyDown.
      case_flags; solve [reflexivity | exact Cm].
Qed.

(** The guard at work in the demo: 23 code units against [maxLength = 20]
    and [maxLength = 15]. *)
Lemma length_guard_rejects_demo :
  let text := "a text of 23 code units" in
  let w := Demo.opened text in
  run (Select.handleInputChange (Demo.custom "") w text) w = idle w /\
  run (Select.handleValueChange (Demo.custom "") text) w = idle w /\
  run (MultiSelect.handleInputChange (Demo.tags []) text) w = idle w /\
  run (Select.handleCreateValue (Demo.custom "") w) w = idle w /\
  run (MultiSelect.handleCreateValue (Demo.tags []) w) w = idle w.
Proof.
  destruct (length_guard_rejects 20 15 "a text of 23 code units"
              (Demo.custom "") (Demo.tags [])
              (Demo.opened "a text of 23 code units")
              eq_refl eq_refl eq_refl eq_refl eq_refl eq_refl)
    as (S1 & S2 & _ & M1 & C).
  destruct (C eq_refl) as (C1 & C2 & _).
  exact (conj S1 (conj S2 (conj M1 (conj C1 C2)))).
Defined.

(** ** Toggling in multi-select mode *)

Lemma arrIncludes_In (a : list string) (x : string) :
  JS.arrIncludes a x = true <-> In x a.
Proof.
  unfold JS.arrIncludes. rewrite existsb_exists. split.
  - intros (y & Hy & E). apply String.eqb_eq in E. subst. exact Hy.
  - intros H. exists x. split; [exact H | apply String.eqb_refl].
Qed.

Lemma arrIncludes_without (a : list string) (x : string) :
  JS.arrIncludes (JS.without a x) x = false.
Proof.
  destruct (JS.arrIncludes (JS.without a x) x) eqn:E; [|reflexivity].
  apply arrIncludes_In in E. unfold JS.without in E.
  apply filter_In in E. destruct E as (_ & E).
  rewrite String.eqb_refl in E. discriminate.
Qed.

Lemma without_absent (a : list string) (x : string) :
  JS.arrIncludes a x = false -> JS.without a x = a.
Proof.
  unfold JS.arrIncludes, JS.without.
  induction a as [|y a IH]; cbn; [reflexivity|].
  intros H. apply orb_false_iff in H. destruct H as (Hxy & Ha).
  rewrite String.eqb_sym, Hxy. cbn. rewrite IH by exact Ha. reflexivity.
Qed.

Lemma without_app (a b : list string) (x : string) :
  JS.without (a ++ b) x = JS.without a x ++ JS.without b x.
Proof. unfold JS.without. apply filter_app. Qed.

Lemma arrIncludes_app_last (a : list string) (x : string) :
  JS.arrIncludes (a ++ [x]) x = true.
Proof. apply arrIncludes_In, in_or_app. right. left. reflexivity. Qed.

(** What the handler does with the array of its render. *)
Lemma handleToggleValue_run (p : MultiSelect.Props) (x : string) (w : UI) :
  run (MultiSelect.handleToggleValue p x) w =
    {| ui := {| internalOpen := internalOpen w; inputValue := "" |};
       calls := [OnValueChange (MultiSelect.toggled (MultiSelect.value p) x)] |}.
Proof. reflexivity. Qed.

(** C2, refuted as stated: toggling a present value twice moves it to
    the end, and collapses its duplicates in an array the caller supplied
    with repetitions. The last conjunct replays the first case on the
    demo's list, the caller storing what [onValueChange] hands it. *)
Lemma toggle_twice_changes_array :
  MultiSelect.toggled (MultiSelect.toggled ["react"; "vue"] "react") "react"
    = ["vue"; "react"] /\
  MultiSelect.toggled (MultiSelect.toggled ["vue"; "vue"] "vue") "vue"
    = ["vue"] /\
  MultiSelect.toggled (MultiSelect.toggled ["react"; "vue"] "react") "react"
    <> ["react"; "vue"] /\
  MultiSelect.toggled (MultiSelect.toggled ["vue"; "vue"] "vue") "vue"
    <> ["vue"; "vue"] /\
  (let p := Demo.frameworks false in
   MultiSelect.step (p ["react"; "vue"]) (Demo.opened "") (MultiSelect.ItemClick 1)
     = Some {| ui := Demo.opened ""; calls := [OnValueChange ["vue"]] |} /\
   MultiSelect.step (p ["vue"]) (Demo.opened "") (MultiSelect.ItemClick 1)
     = Some {| ui := Demo.opened "";
               calls := [OnValueChange ["vue"; "react"]] |}).
Proof. repeat split; discriminate. Qed.

(** C2, amended: toggling [x] twice gives back [v] when [x] is absent
    from [v] (add, then remove); when [x] is present it gives [v] without
    any occurrence of [x], followed by one [x] (remove, then add). The
    result is therefore [v] itself exactly when [x] is absent, or occurs
    once and last. *)
Theorem toggle_twice (v : list string) (x : string)
    (p : MultiSelect.Props) (w w' : UI) :
  MultiSelect.toggled (MultiSelect.toggled v x) x =
    (if JS.arrIncludes v x then JS.without v x ++ [x] else v)
  /\
  (MultiSelect.toggled (MultiSelect.toggled v x) x = v <->
     ~ In x v \/ v = JS.without v x ++ [x])
  /\
  (* the handler, and the handler again on the array it handed over *)
  calls (run (MultiSelect.handleToggleValue (MultiSelect.withValue p v) x) w)
    = [OnValueChange (MultiSelect.toggled v x)]
  /\
  calls (run (MultiSelect.handleToggleValue
                (MultiSelect.withValue p (MultiSelect.toggled v x)) x) w')
    = [OnValueChange (if JS.arrIncludes v x then JS.without v x ++ [x] else v)].
Proof.
  assert (E : MultiSelect.toggled (MultiSelect.toggled v x) x =
              if JS.arrIncludes v x then JS.without v x ++ [x] else v).
  { unfold MultiSelect.toggled at 2.
    destruct (JS.arrIncludes v x) eqn:Hin.
    - unfold MultiSelect.toggled. rewrite arrIncludes_without. reflexivity.
    - unfold MultiSelect.toggled. rewrite arrIncludes_app_last.
      rewrite without_app, without_absent by exact Hin.
      unfold JS.without. cbn. rewrite String.eqb_refl. cbn.
      apply app_nil_r. }
  refine (conj E (conj _ (conj _ _))).
  - rewrite E. destruct (JS.arrIncludes v x) eqn:Hin.
    + split.
      * intros H. right. symmetry. exact H.
      * intros [H | H]; [|symmetry; exact H].
        exfalso. apply H, arrIncludes_In, Hin.
    + split; [|reflexivity].
      intros _. left. intros H. apply arrIncludes_In in H. congruence.
  - rewrite handleToggleValue_run. reflexivity.
  - rewrite handleToggleValue_run. cbn [calls MultiSelect.value
                                        MultiSelect.withValue].
    rewrite E. reflexivity.
Qed.

(** ** Creation *)

(** No option matches: no item's label (its value, when the label is not
    plain text) contains the text, case-insensitively. *)
Lemma hasMatch_false (items : list Child) (text : string) :
  hasMatch items text = false <->
  forall i, In (Element i) items ->
    JS.includes (JS.toLowerCase (SelectItem.label i)) (JS.toLowerCase text)
    = false.
Proof.
  unfold hasMatch. split.
  - intros H i Hi.
    destruct (JS.includes _ _) eqn:E; [|reflexivity].
    assert (existsb (childMatches text) items = true) as Hex
      by (apply existsb_exists; exists (Element i); split; assumption).
    congruence.
  - intros H.
    destruct (existsb (childMatches text) items) eqn:E; [|reflexivity].
    apply existsb_exists in E. destruct E as ([i|] & Hin & Hm).
    + cbn in Hm. unfold labelMatches in Hm. rewrite (H i Hin) in Hm.
      discriminate.
    + discriminate.
Qed.

(** Enter in the text field of [Select], whatever the state. *)
Lemma Select_handleKeyDown_Enter
    (p : Select.Props) (w : UI) (items : list Child) :
  Select.creatable p = true ->
  findSelectContent (Select.children p) = Some items ->
  JS.truthy (JS.trim (inputValue w)) = true ->
  hasMatch items (inputValue w) = false ->
  run (Select.handleKeyDown p w "Enter") w =
    let t := JS.trim (inputValue w) in
    if JS.tooLong (Select.maxLength p) t then idle w
    else {| ui := ui (Select_committed p w t);
            calls := optCall (Select.onCreateOption p) (OnCreateOption t)
                     ++ calls (Select_committed p w t) |}.
Proof.
  intros Hc Hcontent Ht Hnone.
  unfold Select.handleKeyDown.
  rewrite Hc, Ht, Hcontent, Hnone, String.eqb_refl. cbn [negb orb].
  exact (Select_handleCreateValue_run p w Ht).
Qed.

(** Enter in the text field of [MultiSelect], whatever the state. *)
Lemma MultiSelect_handleKeyDown_Enter
    (p : MultiSelect.Props) (w : UI) (items : list Child) :
  MultiSelect.creatable p = true ->
  findSelectContent (MultiSelect.children p) = Some items ->
  JS.truthy (JS.trim (inputValue w)) = true ->
  hasMatch items (inputValue w) = false ->
  run (MultiSelect.handleKeyDown p w "Enter") w =
    let t := JS.trim (inputValue w) in
    if JS.arrIncludes (MultiSelect.value p) t then idle w
    else if JS.tooLong (MultiSelect.maxLength p) t then idle w
    else MultiSelect_created p w t.
Proof.
  intros Hc Hcontent Ht Hnone.
  unfold MultiSelect.handleKeyDown.
  rewrite Hc, Ht, Hcontent, Hnone, String.eqb_refl. cbn [negb orb].
  exact (MultiSelect_handleCreateValue_run p w Ht).
Qed.

(** The text field takes keys only in a creatable container that is not
    disabled. *)
Lemma Select_key_enabled (p : Select.Props) (w : UI) (key : string) :
  Select.enabled p w (Select.KeyDown key) = true ->
  Select.creatable p = true /\ Select.disabled p = false.
Proof.
  cbn. intros H. apply andb_true_iff in H. destruct H as (H & Hd).
  apply andb_true_iff in H. destruct H as (_ & Hc).
  apply negb_true_iff in Hd. split; assumption.
Qed.

Lemma MultiSelect_key_enabled (p : MultiSelect.Props) (w : UI) (key : string) :
  MultiSelect.enabled p w (MultiSelect.KeyDown key) = true ->
  MultiSelect.creatable p = true /\ MultiSelect.disabled p = false.
Proof.
  cbn. intros H. apply andb_true_iff in H. destruct H as (Hc & Hd).
  apply negb_true_iff in Hd. split; assumption.
Qed.

(** C3, refuted as stated: typing two spaces into the demo's creatable
    [Select] gives a filter text that is non-empty and that no option
    contains, yet Enter creates nothing; and in a creatable [Select]
    without a [SelectContent] child, Enter creates nothing whatever the
    text. *)
Lemma select_enter_no_creation :
  (let p := Demo.custom "" in
   Select.step p (Select.initial p) (Select.InputChange "  ")
     = Some {| ui := Demo.opened "  "; calls := [] |} /\
   "  " <> "" /\
   hasMatch Demo.customItems "  " = false /\
   Select.step p (Demo.opened "  ") (Select.KeyDown "Enter")
     = Some (idle (Demo.opened "  "))) /\
  (let p := Demo.bare in
   Select.step p (Select.initial p) (Select.InputChange "zig")
     = Some {| ui := Demo.opened "zig"; calls := [] |} /\
   Select.step p (Demo.opened "zig") (Select.KeyDown "Enter")
     = Some (idle (Demo.opened "zig"))).
Proof. repeat split. discriminate. Qed.

(** C3, amended: in a creatable [Select] that has a [SelectContent]
    child, Enter in the text field, with a filter text that is non-empty
    after trimming and that no option's label (or value, for a label
    that is not plain text) contains case-insensitively, calls
    [onCreateOption], when supplied, exactly once with the trimmed text,
    then [onValueChange] with the trimmed text, and closes the dropdown
    with the filter text cleared. *)
Theorem select_enter_creates
    (p : Select.Props) (v : string) (w : UI) (items : list Child) :
  Select.reachable p w ->
  Select.enabled p w (Select.KeyDown "Enter") = true ->
  findSelectContent (Select.children p) = Some items ->
  JS.truthy (JS.trim (inputValue w)) = true ->
  hasMatch items (inputValue w) = false ->
  let t := JS.trim (inputValue w) in
  Select.step (Select.withValue p v) w (Select.KeyDown "Enter") =
    Some {| ui := {| internalOpen := false; inputValue := "" |};
            calls := optCall (Select.onCreateOption p) (OnCreateOption t)
                     ++ [OnValueChange t]
                     ++ optCall (Select.onOpenChange p) (OnOpenChange false) |}.
Proof.
  intros Hreach En Hcontent Ht Hnone t.
  destruct (Select_key_enabled p w _ En) as (Hc & Hd).
  pose proof (trimmed_passes_guard _ _ (Select_input_bounded p w Hreach) Ht) as G.
  unfold Select.step.
  change (Select.enabled (Select.withValue p v) w (Select.KeyDown "Enter"))
    with (Select.enabled p w (Select.KeyDown "Enter")).
  rewrite En. f_equal.
  change (Select.dispatch (Select.withValue p v) w (Select.KeyDown "Enter"))
    with (Select.handleKeyDown (Select.withValue p v) w "Enter").
  rewrite (Select_handleKeyDown_Enter (Select.withValue p v) w items
             Hc Hcontent Ht Hnone).
  cbv zeta. unfold Select_committed.
  cbn [Select.maxLength Select.disabled Select.onCreateOption
       Select.onOpenChange Select.withValue ui calls].
  subst t. rewrite G, Hd. reflexivity.
Qed.

(** Typing " Zig " into the demo's creatable [Select] and pressing Enter. *)
Lemma select_enter_creates_demo :
  Select.step (Demo.custom "") (Demo.opened " Zig ") (Select.KeyDown "Enter")
  = Some {| ui := Demo.closed "";
            calls := [OnCreateOption "Zig"; OnValueChange "Zig"] |}.
Proof.
  refine (select_enter_creates (Demo.custom "") "" (Demo.opened " Zig ")
            Demo.customItems _ eq_refl eq_refl eq_refl eq_refl).
  exact (Select.reach_step (Demo.custom "") "" (Select.initial (Demo.custom ""))
           (Select.InputChange " Zig ")
           {| ui := Demo.opened " Zig "; calls := [] |}
           (Select.reach_initial _) eq_refl).
Defined.

(** The create row of [MultiSelect] is on screen only when a click on it
    creates. *)
Lemma MultiSelect_create_row_enabled (p : MultiSelect.Props) (w : UI) :
  MultiSelect.enabled p w MultiSelect.CreateRowClick = true ->
  JS.truthy (JS.trim (inputValue w)) = true /\
  JS.arrIncludes (MultiSelect.value p) (JS.trim (inputValue w)) = false.
Proof.
  unfold MultiSelect.enabled. intros H.
  apply andb_true_iff in H. destruct H as (_ & H).
  destruct (findSelectContent (MultiSelect.children p)); [|discriminate].
  apply andb_true_iff in H. destruct H as (H & Hnew).
  apply andb_true_iff in H. destruct H as (_ & Ht).
  apply negb_true_iff in Hnew. split; assumption.
Qed.

(** C4, refuted as stated: typing two spaces into the demo's tag field
    gives a filter text that is non-empty and matches no option, yet
    Enter appends nothing. *)
Lemma multi_enter_no_creation :
  let p := Demo.tags ["react"; "typescript"] in
  MultiSelect.step p (MultiSelect.initial p) MultiSelect.InputFocus
    = Some {| ui := Demo.opened ""; calls := [] |} /\
  MultiSelect.step p (Demo.opened "") (MultiSelect.InputChange "  ")
    = Some {| ui := Demo.opened "  "; calls := [] |} /\
  "  " <> "" /\
  hasMatch Demo.tagItems "  " = false /\
  MultiSelect.step p (Demo.opened "  ") (MultiSelect.KeyDown "Enter")
    = Some (idle (Demo.opened "  ")).
Proof. repeat split. discriminate. Qed.

(** C4, amended: in a creatable [MultiSelect] that has a [SelectContent]
    child, Enter in the text field, with a filter text that is non-empty
    after trimming and matches no option, does nothing at all when the
    trimmed text is already in the array (no [onCreateOption], no
    [onValueChange], no state written); otherwise it calls
    [onCreateOption], when supplied, once with the trimmed text, then
    [onValueChange] with the array extended by it, and clears the filter
    text. A click on the create row, which is rendered only for a new
    text, does the same. The open flag is not written: an open dropdown
    stays open. *)
Theorem multi_creation
    (p : MultiSelect.Props) (v : list string) (w : UI) (items : list Child) :
  MultiSelect.reachable p w ->
  let t := JS.trim (inputValue w) in
  let p' := MultiSelect.withValue p v in
  let created :=
    {| ui := {| internalOpen := internalOpen w; inputValue := "" |};
       calls := optCall (MultiSelect.onCreateOption p) (OnCreateOption t)
                ++ [OnValueChange (v ++ [t])] |} in
  (MultiSelect.enabled p w (MultiSelect.KeyDown "Enter") = true ->
   findSelectContent (MultiSelect.children p) = Some items ->
   JS.truthy t = true ->
   hasMatch items (inputValue w) = false ->
   MultiSelect.step p' w (MultiSelect.KeyDown "Enter") =
     Some (if JS.arrIncludes v t then idle w else created))
  /\
  (MultiSelect.enabled p' w MultiSelect.CreateRowClick = true ->
   MultiSelect.step p' w MultiSelect.CreateRowClick = Some created).
Proof.
  intros Hreach t p' created.
  pose proof (MultiSelect_input_bounded p w Hreach) as Hb.
  split.
  - intros En Hcontent Ht Hnone.
    destruct (MultiSelect_key_enabled p w _ En) as (Hc & _).
    pose proof (trimmed_passes_guard _ _ Hb Ht) as G.
    unfold MultiSelect.step.
    change (MultiSelect.enabled p' w (MultiSelect.KeyDown "Enter"))
      with (MultiSelect.enabled p w (MultiSelect.KeyDown "Enter")).
    rewrite En. f_equal.
    change (MultiSelect.dispatch p' w (MultiSelect.KeyDown "Enter"))
      with (MultiSelect.handleKeyDown p' w "Enter").
    rewrite (MultiSelect_handleKeyDown_Enter p' w items Hc Hcontent Ht Hnone).
    cbv zeta. unfold MultiSelect_created.
    cbn [MultiSelect.maxLength MultiSelect.value MultiSelect.onCreateOption
         MultiSelect.withValue p'].
    subst t. rewrite G. reflexivity.
  - intros En.
    destruct (MultiSelect_create_row_enabled p' w En) as (Ht & Hnew).
    pose proof (trimmed_passes_guard _ _ Hb Ht) as G.
    unfold MultiSelect.step. rewrite En. f_equal.
    change (MultiSelect.dispatch p' w MultiSelect.CreateRowClick)
      with (MultiSelect.handleCreateValue p' w).
    rewrite (MultiSelect_handleCreateValue_run p' w Ht).
    cbv zeta. rewrite Hnew. unfold MultiSelect_created.
    cbn [MultiSelect.maxLength MultiSelect.value MultiSelect.onCreateOption
         MultiSelect.withValue p'].
    rewrite G. reflexivity.
Qed.

(** Typing " rust " into the demo's tag field: Enter appends "rust" and
    leaves the dropdown open. *)
Lemma multi_creation_demo :
  MultiSelect.step (Demo.tags ["react"; "typescript"]) (Demo.opened " rust ")
                   (MultiSelect.KeyDown "Enter")
  = Some {| ui := Demo.opened "";
            calls := [OnCreateOption "rust";
                      OnValueChange ["react"; "typescript"; "rust"]] |}.
Proof.
  refine (proj1 (multi_creation (Demo.tags []) ["react"; "typescript"]
                   (Demo.opened " rust ") Demo.tagItems _)
            eq_refl eq_refl eq_refl eq_refl).
  refine (MultiSelect.reach_step (Demo.tags []) [] (Demo.opened "")
            (MultiSelect.InputChange " rust ")
            {| ui := Demo.opened " rust "; calls := [] |} _ eq_refl).
  exact (MultiSelect.reach_step (Demo.tags []) []
           (MultiSelect.initial (Demo.tags [])) MultiSelect.InputFocus
           {| ui := Demo.opened ""; calls := [] |}
           (MultiSelect.reach_initial _) eq_refl).
Defined.

(** ** Selecting an item in single-select mode *)

(** C5, refuted as stated: an item whose value is longer than [maxLength]
    is not committed when clicked (nothing is called, the dropdown stays
    open); and in a disabled container that was mounted open, the click
    commits the value but the dropdown stays open. *)
Lemma item_click_not_always_commits :
  (let p := Demo.customLong "" in
   Select.step p (Select.initial p) Select.TriggerClick
     = Some {| ui := Demo.opened ""; calls := [] |} /\
   nth_error (Select.filteredChildren p (Demo.opened "")) 0
     = Some (Demo.item Demo.longValue "Long") /\
   Select.step p (Demo.opened "") (Select.ItemClick 0)
     = Some (idle (Demo.opened ""))) /\
  (let p := Demo.color true in
   Select.initial p = Demo.opened "" /\
   Select.step p (Demo.opened "") (Select.ItemClick 0)
     = Some {| ui := Demo.opened ""; calls := [OnValueChange "red"] |}).
Proof. repeat split. Qed.

(** C5, amended: clicking a rendered item whose value is not longer than
    a non-zero [maxLength] calls [onValueChange] with exactly that
    item's value and clears the filter text; it closes the dropdown
    (announcing it through [onOpenChange] when supplied) unless the
    container is disabled, in which case the open flag is not written
    and the dropdown stays open. *)
Theorem item_click_commits
    (p : Select.Props) (w : UI) (row : nat) (i : SelectItem.Props) :
  internalOpen w = true ->
  nth_error (Select.filteredChildren p w) row = Some (Element i) ->
  JS.tooLong (Select.maxLength p) (SelectItem.value i) = false ->
  Select.step p w (Select.ItemClick row) =
    Some {| ui := {| internalOpen := if Select.disabled p then true else false;
                     inputValue := "" |};
            calls := OnValueChange (SelectItem.value i) ::
                     (if Select.disabled p then []
                      else optCall (Select.onOpenChange p) (OnOpenChange false)) |}.
Proof.
  intros Hopen Hrow G. unfold Select.step, Select.enabled, Select.dispatch.
  rewrite Hopen, Hrow. cbn [andb]. f_equal.
  unfold SelectItem_handleClick, run.
  rewrite (Select_handleValueChange_run p w _ [] G).
  unfold Select_committed. rewrite Hopen. reflexivity.
Qed.

(** Clicking "Vue", the third row of the open framework list. *)
Lemma item_click_commits_demo :
  Select.step (Demo.framework "") (Demo.opened "") (Select.ItemClick 2)
  = Some {| ui := Demo.closed ""; calls := [OnValueChange "vue"] |}.
Proof.
  exact (item_click_commits (Demo.framework "") (Demo.opened "") 2
           {| SelectItem.value := "vue"; SelectItem.children := PlainText "Vue" |}
           eq_refl eq_refl eq_refl).
Defined.

(** ** Filtering *)

Lemma includes_empty (s : string) : JS.includes s "" = true.
Proof. destruct s; reflexivity. Qed.

Lemma In_filter_keepChild (text : string) (items : list Child)
    (i : SelectItem.Props) :
  In (Element i) (filter (keepChild text) items) <->
  In (Element i) items /\ labelMatches text i = true.
Proof. apply filter_In. Qed.

(** C6, refuted as stated: the filter of [MultiSelect] tests only
    [inputValue], never [creatable] (lines 511-517). A non-creatable
    [MultiSelect] rendered in a state that holds the text "re" (typed
    while the container was creatable, as the last conjunct shows)
    renders one of its five options. *)
Lemma multi_filter_ignores_creatable :
  let p := Demo.frameworks false [] in
  MultiSelect.creatable p = false /\
  MultiSelect.filteredChildren p (Demo.opened "re")
    = [Demo.item "react" "React"] /\
  MultiSelect.filteredChildren p (Demo.opened "re") <> Demo.frameworkItems /\
  MultiSelect.step (Demo.frameworks true []) (Demo.opened "")
                   (MultiSelect.InputChange "re")
    = Some {| ui := Demo.opened "re"; calls := [] |}.
Proof. repeat split. discriminate. Qed.

(** C6, amended: an option is rendered iff it is a child of the content
    and the lowercased filter text occurs in its lowercased label, the
    label being the [children] of the item when they are a plain string
    and its [value] otherwise; children that are not elements are always
    kept. This holds of [SelectContent], hence of a creatable [Select],
    and of [MultiSelect] whatever its [creatable]. Options "React" and
    "Vue" under the text "re" leave exactly "React"; a plain label hides
    the value behind it. An empty filter text removes nothing, and a
    non-creatable [Select] passes no filter text to its content and
    removes nothing. [MultiSelect] filters by its [inputValue] alone. *)
Theorem filtering_is_substring_match
    (items : list Child) (text : string) (i : SelectItem.Props)
    (sp : Select.Props) (mp : MultiSelect.Props) (w : UI) :
  let shown :=
    JS.includes
      (JS.toLowerCase match SelectItem.children i with
                      | PlainText s => s
                      | RichContent => SelectItem.value i
                      end) in
  (In (Element i) (SelectContent_filteredChildren items (Some text)) <->
   In (Element i) items /\ shown (JS.toLowerCase text) = true)
  /\
  (In Node (SelectContent_filteredChildren items (Some text)) <-> In Node items)
  /\
  (findSelectContent (Select.children sp) = Some items ->
   Select.creatable sp = true ->
   (In (Element i) (Select.filteredChildren sp w) <->
    In (Element i) items /\ shown (JS.toLowerCase (inputValue w)) = true))
  /\
  (findSelectContent (MultiSelect.children mp) = Some items ->
   (In (Element i) (MultiSelect.filteredChildren mp w) <->
    In (Element i) items /\ shown (JS.toLowerCase (inputValue w)) = true))
  /\
  SelectContent_filteredChildren
    [Demo.item "react" "React"; Demo.item "vue" "Vue"] (Some "re")
  = [Demo.item "react" "React"]
  /\
  SelectContent_filteredChildren Demo.mixedItems (Some "RE")
  = [Demo.item "fw-1" "React";
     Element {| SelectItem.value := "preact";
                SelectItem.children := RichContent |}]
  /\
  SelectContent_filteredChildren Demo.mixedItems (Some "fw") = []
  /\
  (findSelectContent (Select.children sp) = Some items ->
   Select.creatable sp = false \/ inputValue w = "" ->
   Select.filteredChildren sp w = items)
  /\
  (findSelectContent (MultiSelect.children mp) = Some items ->
   inputValue w = "" ->
   MultiSelect.filteredChildren mp w = items)
  /\
  (findSelectContent (MultiSelect.children mp) = Some items ->
   MultiSelect.filteredChildren mp w =
     if JS.truthy (inputValue w)
     then filter (keepChild (inputValue w)) items else items).
Proof.
  intros shown.
  assert (Hkeep : forall text',
            In (Element i) (if JS.truthy text'
                            then filter (keepChild text') items else items) <->
            In (Element i) items /\ shown (JS.toLowerCase text') = true).
  { intros text'. subst shown. destruct text' as [|c text'].
    - cbn [JS.truthy JS.toLowerCase]. rewrite includes_empty. tauto.
    - cbn [JS.truthy]. exact (In_filter_keepChild _ items i). }
  refine (conj _ (conj _ (conj _ (conj _ (conj _
            (conj _ (conj _ (conj _ (conj _ _))))))))).
  - apply Hkeep.
  - unfold SelectContent_filteredChildren.
    destruct (JS.truthy text); [|tauto]. rewrite filter_In. cbn. tauto.
  - intros Hc Hcr. unfold Select.filteredChildren, Select.filterValue.
    rewrite Hc, Hcr. apply Hkeep.
  - intros Hc. unfold MultiSelect.filteredChildren. rewrite Hc. apply Hkeep.
  - reflexivity.
  - reflexivity.
  - reflexivity.
  - intros Hc Hor. unfold Select.filteredChildren, Select.filterValue.
    rewrite Hc. destruct Hor as [Hn | Hw].
    + rewrite Hn. reflexivity.
    + rewrite Hw. destruct (Select.creatable sp); reflexivity.
  - intros Hc Hw. unfold MultiSelect.filteredChildren. rewrite Hc, Hw.
    reflexivity.
  - intros Hc. unfold MultiSelect.filteredChildren. rewrite Hc. reflexivity.
Qed.

(** The demo's lists: "RE" on the creatable tags keeps "react"; the
    non-creatable [Select] keeps its five options whatever its state. *)
Lemma filtering_demo :
  (In (Demo.item "react" "react")
      (MultiSelect.filteredChildren (Demo.tags []) (Demo.opened "RE"))) /\
  Select.filteredChildren (Demo.framework "") (Demo.opened "re")
    = Demo.frameworkItems.
Proof.
  pose proof (filtering_is_substring_match Demo.tagItems "RE"
                {| SelectItem.value := "react"; SelectItem.children := PlainText "react" |}
                (Demo.framework "") (Demo.tags []) (Demo.opened "RE"))
    as (_ & _ & _ & M & _).
  pose proof (filtering_is_substring_match Demo.frameworkItems "re"
                {| SelectItem.value := "react"; SelectItem.children := PlainText "React" |}
                (Demo.framework "") (Demo.frameworks false [])
                (Demo.opened "re"))
    as (_ & _ & _ & _ & _ & _ & _ & S & _).
  refine (conj _ _).
  - apply (M eq_refl). split; [left; reflexivity | reflexivity].
  - apply (S eq_refl). left. reflexivity.
Defined.

(** ** Closing *)

(** Whatever the event, a container whose open flag goes from true to
    false ends with the empty filter text. *)
Lemma Select_close_clears (p : Select.Props) (w : UI) (e : Select.Event) :
  internalOpen w = true ->
  internalOpen (ui (run (Select.dispatch p w e) w)) = false ->
  inputValue (ui (run (Select.dispatch p w e) w)) = "".
Proof.
  intros Hopen. destruct e; exec_select; rewrite ?Hopen; cbn;
    case_flags; cbn; congruence.
Qed.

Lemma MultiSelect_close_clears (p : MultiSelect.Props) (w : UI)
    (e : MultiSelect.Event) :
  internalOpen w = true ->
  internalOpen (ui (run (MultiSelect.dispatch p w e) w)) = false ->
  inputValue (ui (run (MultiSelect.dispatch p w e) w)) = "".
Proof.
  intros Hopen. destruct e; exec_multi; rewrite ?Hopen; cbn;
    case_flags; cbn; congruence.
Qed.

(** C7, refuted as stated: the demo's [defaultOpen] container, when
    disabled, is open from its first render, the document listener is
    attached, and a pointer-down outside the root changes nothing. *)
Lemma outside_click_ignored_when_disabled :
  let p := Demo.color true in
  Select.initial p = Demo.opened "" /\
  Select.step p (Demo.opened "") Select.OutsideMouseDown
    = Some (idle (Demo.opened "")).
Proof. repeat split. Qed.

(** C7, amended: while the dropdown of a container that is not disabled
    is open, a pointer-down outside the root closes it, clears the
    filter text and reports the close through [onOpenChange] when
    supplied; and whatever the event and whatever the flags, a
    transition of the open flag from true to false leaves the filter
    text empty. Both hold for [Select] and for [MultiSelect]. *)
Theorem closing_clears_filter
    (sp : Select.Props) (mp : MultiSelect.Props) (w : UI) :
  internalOpen w = true ->
  (Select.disabled sp = false ->
   Select.step sp w Select.OutsideMouseDown =
     Some {| ui := {| internalOpen := false; inputValue := "" |};
             calls := optCall (Select.onOpenChange sp) (OnOpenChange false) |})
  /\
  (MultiSelect.disabled mp = false ->
   MultiSelect.step mp w MultiSelect.OutsideMouseDown =
     Some {| ui := {| internalOpen := false; inputValue := "" |};
             calls := optCall (MultiSelect.onOpenChange mp) (OnOpenChange false) |})
  /\
  (forall e,
     internalOpen (ui (run (Select.dispatch sp w e) w)) = false ->
     inputValue (ui (run (Select.dispatch sp w e) w)) = "")
  /\
  (forall e,
     internalOpen (ui (run (MultiSelect.dispatch mp w e) w)) = false ->
     inputValue (ui (run (MultiSelect.dispatch mp w e) w)) = "").
Proof.
  intros Hopen. refine (conj _ (conj _ (conj _ _))).
  - intros Hd. unfold Select.step, Select.enabled. rewrite Hopen. f_equal.
    change (Select.dispatch sp w Select.OutsideMouseDown)
      with (Select.handleOpenChange sp false).
    rewrite Select_handleOpenChange_run, Hd. reflexivity.
  - intros Hd. unfold MultiSelect.step, MultiSelect.enabled.
    rewrite Hopen. f_equal.
    change (MultiSelect.dispatch mp w MultiSelect.OutsideMouseDown)
      with (MultiSelect.handleOpenChange mp false).
    rewrite MultiSelect_handleOpenChange_run, Hd. reflexivity.
  - intros e. apply Select_close_clears. exact Hopen.
  - intros e. apply MultiSelect_close_clears. exact Hopen.
Qed.

(** Typing "re" into the demo's creatable [Select], then pressing the
    pointer outside it. *)
Lemma closing_clears_filter_demo :
  Select.step (Demo.custom "") (Demo.opened "re") Select.OutsideMouseDown
  = Some {| ui := Demo.closed ""; calls := [] |}.
Proof.
  exact (proj1 (closing_clears_filter (Demo.custom "") (Demo.tags [])
                  (Demo.opened "re") eq_refl) eq_refl).
Defined.

(** ** Creations that are ignored *)

(** C8: when the trimmed text is empty (an empty or whitespace-only
    field), creation does nothing in [Select] and in [MultiSelect],
    whether it comes from the create row or from a key: no callback is
    invoked and the open flag and the filter text are left as they were.
    The same holds in [MultiSelect] when the trimmed text is already in
    the array. The handlers are total: there is no failing path. *)
Theorem ignored_creation
    (sp : Select.Props) (mp : MultiSelect.Props) (w : UI) :
  (JS.trim (inputValue w) = "" ->
   run (Select.handleCreateValue sp w) w = idle w /\
   run (MultiSelect.handleCreateValue mp w) w = idle w /\
   forall key,
     run (Select.handleKeyDown sp w key) w = idle w /\
     run (MultiSelect.handleKeyDown mp w key) w = idle w)
  /\
  (JS.arrIncludes (MultiSelect.value mp) (JS.trim (inputValue w)) = true ->
   run (MultiSelect.handleCreateValue mp w) w = idle w /\
   forall key, run (MultiSelect.handleKeyDown mp w key) w = idle w).
Proof.
  split.
  - intros Ht.
    unfold Select.handleKeyDown, MultiSelect.handleKeyDown,
      Select.handleCreateValue, MultiSelect.handleCreateValue.
    cbv zeta. rewrite Ht. cbn [JS.truthy negb andb orb].
    repeat split; rewrite orb_true_r; reflexivity.
  - intros Hdup.
    assert (E : run (MultiSelect.handleCreateValue mp w) w = idle w).
    { unfold MultiSelect.handleCreateValue. cbv zeta. rewrite Hdup.
      rewrite andb_false_r. reflexivity. }
    split; [exact E|]. intros key.
    unfold MultiSelect.handleKeyDown. case_flags; solve [reflexivity | exact E].
Qed.

(** A field of three spaces in the demo's creatable containers, and the
    text " go " with "go" already selected. *)
Lemma ignored_creation_demo :
  run (Select.handleCreateValue (Demo.custom "") (Demo.opened "   "))
      (Demo.opened "   ") = idle (Demo.opened "   ") /\
  run (MultiSelect.handleCreateValue (Demo.tags ["go"]) (Demo.opened " go "))
      (Demo.opened " go ") = idle (Demo.opened " go ").
Proof.
  split.
  - exact (proj1 (proj1 (ignored_creation (Demo.custom "") (Demo.tags ["go"])
                           (Demo.opened "   ")) eq_refl)).
  - exact (proj1 (proj2 (ignored_creation (Demo.custom "") (Demo.tags ["go"])
                           (Demo.opened " go ")) eq_refl)).
Defined.

(** ** [maxLength = 0] *)

(** C9: a [maxLength] of 0 is falsy, so every guard is skipped: each
    event of either container is enabled alike and has the very outcome
    it has with [maxLength] unset, and the lists are filtered alike. In
    particular an edit of any length is stored, a commit of any length
    reaches [onValueChange], and a creation of any length is carried
    out. *)
Theorem maxLength_zero_is_unset
    (sp : Select.Props) (mp : MultiSelect.Props) (w : UI) (text : string) :
  let s0 := Select.withMaxLength sp (Some 0%Z) in
  let m0 := MultiSelect.withMaxLength mp (Some 0%Z) in
  (forall e, Select.step s0 w e
             = Select.step (Select.withMaxLength sp None) w e)
  /\
  (forall e, MultiSelect.step m0 w e
             = MultiSelect.step (MultiSelect.withMaxLength mp None) w e)
  /\
  Select.filteredChildren s0 w
  = Select.filteredChildren (Select.withMaxLength sp None) w
  /\
  MultiSelect.filteredChildren m0 w
  = MultiSelect.filteredChildren (MultiSelect.withMaxLength mp None) w
  /\
  inputValue (ui (run (Select.handleInputChange s0 w text) w)) = text
  /\
  inputValue (ui (run (MultiSelect.handleInputChange m0 text) w)) = text
  /\
  In (OnValueChange text) (calls (run (Select.handleValueChange s0 text) w))
  /\
  (JS.truthy (JS.trim (inputValue w)) = true ->
   In (OnValueChange (JS.trim (inputValue w)))
      (calls (run (Select.handleCreateValue s0 w) w)))
  /\
  (JS.truthy (JS.trim (inputValue w)) = true ->
   JS.arrIncludes (MultiSelect.value mp) (JS.trim (inputValue w)) = false ->
   In (OnValueChange (MultiSelect.value mp ++ [JS.trim (inputValue w)]))
      (calls (run (MultiSelect.handleCreateValue m0 w) w))).
Proof.
  intros s0 m0.
  refine (conj _ (conj _ (conj _ (conj _
            (conj _ (conj _ (conj _ (conj _ _)))))))).
  - intros e. destruct e; reflexivity.
  - intros e. destruct e; reflexivity.
  - reflexivity.
  - reflexivity.
  - unfold Select.handleInputChange.
    cbn [Select.maxLength s0 Select.withMaxLength].
    rewrite tooLong_zero. unfold Select.handleOpenChange.
    cbn [Select.disabled Select.onOpenChange s0 Select.withMaxLength].
    destruct (internalOpen w), (Select.disabled sp), (Select.onOpenChange sp);
      reflexivity.
  - reflexivity.
  - unfold Select.handleValueChange, Select.handleOpenChange.
    cbn [Select.maxLength s0 Select.withMaxLength]. rewrite tooLong_zero.
    cbn [Select.disabled Select.onOpenChange s0 Select.withMaxLength].
    destruct (Select.disabled sp), (Select.onOpenChange sp); cbn; auto.
  - intros Ht. rewrite (Select_handleCreateValue_run s0 w Ht). cbv zeta.
    cbn [Select.maxLength s0 Select.withMaxLength]. rewrite tooLong_zero.
    cbn [calls]. apply in_or_app. right. left. reflexivity.
  - intros Ht Hnew. rewrite (MultiSelect_handleCreateValue_run m0 w Ht).
    cbv zeta. cbn [MultiSelect.maxLength MultiSelect.value m0
                   MultiSelect.withMaxLength].
    rewrite Hnew, tooLong_zero. cbn [calls MultiSelect_created].
    apply in_or_app. right. left. reflexivity.
Qed.

(** With [maxLength={0}] the demo's creatable containers take a text of
    23 code units through creation. *)
Lemma maxLength_zero_demo :
  let text := "a text of 23 code units" in
  In (OnValueChange text)
     (calls (run (Select.handleCreateValue
                    (Select.withMaxLength (Demo.custom "") (Some 0%Z))
                    (Demo.opened text)) (Demo.opened text))) /\
  In (OnValueChange ["go"; text])
     (calls (run (MultiSelect.handleCreateValue
                    (MultiSelect.withMaxLength (Demo.tags ["go"]) (Some 0%Z))
                    (Demo.opened text)) (Demo.opened text))).
Proof.
  pose proof (maxLength_zero_is_unset (Demo.custom "") (Demo.tags ["go"])
                (Demo.opened "a text of 23 code units") "")
    as (_ & _ & _ & _ & _ & _ & _ & S & M).
  split; [exact (S eq_refl) | exact (M eq_refl eq_refl)].
Defined.

(** ** The disabled guard *)




(** * Further properties of the containers *)

(** ** The array of [MultiSelect] *)

Lemma In_without (a : list string) (x y : string) :
  In y (JS.without a x) <-> In y a /\ y <> x.
Proof.
  unfold JS.without. rewrite filter_In, negb_true_iff, String.eqb_neq.
  reflexivity.
Qed.

Lemma NoDup_without (a : list string) (x : string) :
  NoDup a -> NoDup (JS.without a x).
Proof. apply NoDup_filter. Qed.

Lemma NoDup_app_last (a : list string) (x : string) :
  NoDup a -> ~ In x a -> NoDup (a ++ [x]).
Proof.
  intros Ha Hx. induction a as [|y a IH]; cbn.
  - constructor; [intros [] | constructor].
  - inversion Ha as [|? ? Hy Ha']; subst. constructor.
    + rewrite in_app_iff. intros [H | [H | []]]; [exact (Hy H)|].
      subst. apply Hx. left. reflexivity.
    + apply IH; [exact Ha'|]. intros H. apply Hx. right. exact H.
Qed.

(** X1: a toggle flips the membership of the toggled value and of no
    other: the check mark of the clicked item changes, the check marks
    of the items with another value stay. *)
Theorem toggle_flips_membership (v : list string) (x : string) :
  (In x (MultiSelect.toggled v x) <-> ~ In x v)
  /\
  (forall y, y <> x -> (In y (MultiSelect.toggled v x) <-> In y v))
  /\
  (forall i sv,
     SelectItem_isSelected i sv (Some (MultiSelect.toggled v x)) =
       if String.eqb (SelectItem.value i) x
       then negb (SelectItem_isSelected i sv (Some v))
       else SelectItem_isSelected i sv (Some v)).
Proof.
  assert (Hx : In x (MultiSelect.toggled v x) <-> ~ In x v).
  { unfold MultiSelect.toggled. destruct (JS.arrIncludes v x) eqn:E.
    - apply arrIncludes_In in E. rewrite In_without. tauto.
    - assert (~ In x v) by (rewrite <- arrIncludes_In; congruence).
      rewrite in_app_iff. cbn. tauto. }
  assert (Hy : forall y, y <> x -> (In y (MultiSelect.toggled v x) <-> In y v)).
  { intros y Hne. unfold MultiSelect.toggled.
    destruct (JS.arrIncludes v x).
    - rewrite In_without. tauto.
    - rewrite in_app_iff. cbn. intuition congruence. }
  refine (conj Hx (conj Hy _)).
  intros i sv. cbn [SelectItem_isSelected].
  destruct (String.eqb_spec (SelectItem.value i) x) as [-> | Hne].
  - destruct (JS.arrIncludes v x) eqn:E.
    + cbn. destruct (JS.arrIncludes (MultiSelect.toggled v x) x) eqn:E';
        [|reflexivity].
      apply arrIncludes_In in E'. apply arrIncludes_In in E. tauto.
    + cbn. apply arrIncludes_In. apply Hx.
      rewrite <- arrIncludes_In. congruence.
  - destruct (JS.arrIncludes v (SelectItem.value i)) eqn:E.
    + apply arrIncludes_In. apply (Hy _ Hne). apply arrIncludes_In. exact E.
    + destruct (JS.arrIncludes (MultiSelect.toggled v x) _) eqn:E';
        [|reflexivity].
      apply arrIncludes_In in E'. apply (Hy _ Hne) in E'.
      apply arrIncludes_In in E'. congruence.
Qed.

(** X2: no event makes [MultiSelect] hand a repeated value to
    [onValueChange] when the array it was rendered with has none:
    toggling, removing, clearing and creating all keep the array free of
    duplicates. *)
Theorem multi_events_keep_NoDup
    (p : MultiSelect.Props) (w : UI) (e : MultiSelect.Event)
    (v' : list string) :
  NoDup (MultiSelect.value p) ->
  In (OnValueChange v') (calls (run (MultiSelect.dispatch p w e) w)) ->
  NoDup v'.
Proof.
  intros Hv.
  assert (Htoggle : forall x, NoDup (MultiSelect.toggled (MultiSelect.value p) x)).
  { intros x. unfold MultiSelect.toggled.
    destruct (JS.arrIncludes _ x) eqn:E.
    - apply NoDup_without, Hv.
    - apply NoDup_app_last; [exact Hv|].
      rewrite <- arrIncludes_In. congruence. }
  destruct e; exec_multi.
  - case_flags; cbn; intros H; repeat destruct H as [H | H]; try discriminate;
      contradiction.
  - case_flags; cbn; intros [].
  - case_flags; cbn; intros H; repeat destruct H as [H | H];
      try discriminate; try contradiction.
    all: injection H as <-; apply NoDup_app_last; [exact Hv|].
    all: match goal with
         | E : (_ && negb (JS.arrIncludes _ _))%bool = true |- _ =>
             apply andb_true_iff in E; destruct E as (_ & E);
             apply negb_true_iff in E;
             rewrite <- arrIncludes_In; congruence
         end.
  - case_flags; cbn; intros H; repeat destruct H as [H | H]; try discriminate;
      contradiction.
  - case_flags; cbn; intros H; repeat destruct H as [H | H];
      try discriminate; try contradiction.
    injection H as <-. apply Htoggle.
  - intros [H | []]. injection H as <-. apply NoDup_without, Hv.
  - intros [H | []]. injection H as <-. constructor.
  - case_flags; cbn; intros H; repeat destruct H as [H | H];
      try discriminate; try contradiction.
    all: injection H as <-; apply NoDup_app_last; [exact Hv|].
    all: match goal with
         | E : (_ && negb (JS.arrIncludes _ _))%bool = true |- _ =>
             apply andb_true_iff in E; destruct E as (_ & E);
             apply negb_true_iff in E;
             rewrite <- arrIncludes_In; congruence
         end.
  - case_flags; cbn; intros H; repeat destruct H as [H | H]; try discriminate;
      contradiction.
Qed.

(** Creating "rust" next to "go" in the demo's tag field. *)
Lemma multi_events_keep_NoDup_demo : NoDup ["go"; "rust"].
Proof.
  refine (multi_events_keep_NoDup (Demo.tags ["go"]) (Demo.opened "rust")
            (MultiSelect.KeyDown "Enter") ["go"; "rust"] _ _).
  - constructor; [intros [] | constructor].
  - right. left. reflexivity.
Defined.

(** X3: the remove icon of a chip calls [onValueChange] once, with the
    array without any occurrence of the chip's value and with every
    other value kept; it writes neither the open flag nor the filter
    text. *)
Theorem remove_chip (p : MultiSelect.Props) (w : UI) (x : string) :
  exists v',
    run (MultiSelect.handleRemoveValue p x) w
      = {| ui := w; calls := [OnValueChange v'] |} /\
    ~ In x v' /\
    (forall y, y <> x -> (In y v' <-> In y (MultiSelect.value p))) /\
    (List.length v' <= List.length (MultiSelect.value p))%nat /\
    (~ In x (MultiSelect.value p) -> v' = MultiSelect.value p).
Proof.
  exists (JS.without (MultiSelect.value p) x).
  refine (conj _ (conj _ (conj _ (conj _ _)))).
  - reflexivity.
  - rewrite In_without. tauto.
  - intros y Hne. rewrite In_without. tauto.
  - unfold JS.without. apply filter_length_le.
  - intros Hx. apply without_absent.
    destruct (JS.arrIncludes _ x) eqn:E; [|reflexivity].
    apply arrIncludes_In in E. contradiction.
Qed.

(** ** What the callbacks receive *)

(** X4: whatever the event, a value [Select] hands to [onValueChange]
    has passed the length guard: with a non-zero [maxLength] no commit,
    by an item click or by a creation, carries a longer value. *)
Theorem select_commits_within_maxLength
    (p : Select.Props) (w : UI) (e : Select.Event) (v : string) (m : Z) :
  Select.maxLength p = Some m ->
  m <> 0%Z ->
  In (OnValueChange v) (calls (run (Select.dispatch p w e) w)) ->
  (Z.of_nat (length v) <= m)%Z.
Proof.
  intros Hm Hm0 Hin.
  assert (G : JS.tooLong (Select.maxLength p) v = false).
  { revert Hin. destruct e; exec_select; case_flags; cbn; intros H;
      in_calls H; injection H as <-; assumption. }
  rewrite Hm in G. unfold JS.tooLong in G.
  destruct (Z.eqb_spec m 0) as [|_]; [contradiction|]. cbn in G.
  rewrite Z.gtb_ltb, Z.ltb_ge in G. exact G.
Qed.

(** Clicking "Option 2" in the demo's creatable [Select]: 8 code units
    against [maxLength = 20]. *)
Lemma select_commits_within_maxLength_demo :
  (Z.of_nat (length "Option 2") <=? 20)%Z = true.
Proof.
  apply Z.leb_le.
  refine (select_commits_within_maxLength (Demo.custom "") (Demo.opened "")
            (Select.ItemClick 1) "Option 2" 20 eq_refl _ _).
  - discriminate.
  - left. reflexivity.
Defined.

Lemma trimStart_fixed (s : string) :
  JS.trimStart s = s <->
  match s with EmptyString => True | String c _ => JS.isWhiteSpace c = false end.
Proof.
  destruct s as [|c s]; cbn; [tauto|].
  destruct (JS.isWhiteSpace c) eqn:E; split; try congruence; try reflexivity.
  intros H. pose proof (trimStart_length s) as L. rewrite H in L.
  cbn in L. lia.
Qed.

Lemma trimStart_idem (s : string) : JS.trimStart (JS.trimStart s) = JS.trimStart s.
Proof.
  induction s as [|c s IH]; [reflexivity|]. cbn.
  destruct (JS.isWhiteSpace c) eqn:E; [exact IH|]. cbn. rewrite E. reflexivity.
Qed.

Lemma trimEnd_cons (c : ascii) (s : string) :
  JS.trimEnd (String c s) =
    match JS.trimEnd s with
    | EmptyString =>
        if JS.isWhiteSpace c then EmptyString else String c EmptyString
    | r => String c r
    end.
Proof. reflexivity. Qed.

Lemma trimEnd_idem (s : string) : JS.trimEnd (JS.trimEnd s) = JS.trimEnd s.
Proof.
  induction s as [|c s IH]; [reflexivity|]. rewrite trimEnd_cons.
  destruct (JS.trimEnd s) as [|d r] eqn:E.
  - destruct (JS.isWhiteSpace c) eqn:Ec; [reflexivity|].
    rewrite trimEnd_cons. cbn. rewrite Ec. reflexivity.
  - rewrite trimEnd_cons, IH. reflexivity.
Qed.

Lemma trimEnd_keeps_start (s : string) :
  JS.trimStart s = s -> JS.trimStart (JS.trimEnd s) = JS.trimEnd s.
Proof.
  intros H. apply trimStart_fixed in H. apply trimStart_fixed.
  destruct s as [|c s]; [exact I|]. rewrite trimEnd_cons.
  destruct (JS.trimEnd s); [rewrite H|]; exact H.
Qed.

(** The result of [trim] has no white space at either end. *)
Lemma trim_clean (s : string) :
  JS.trimStart (JS.trim s) = JS.trim s /\ JS.trimEnd (JS.trim s) = JS.trim s.
Proof.
  unfold JS.trim. split.
  - apply trimEnd_keeps_start, trimStart_idem.
  - apply trimEnd_idem.
Qed.

(** X5: [onCreateOption] only ever receives the trimmed filter text of
    the render, and only when that text is non-empty, free of white
    space at both ends and within a non-zero [maxLength]; the same event
    always goes on to commit it, as the new value in [Select], appended
    to the array, where it was not yet present, in [MultiSelect]. *)
Theorem created_option_is_clean
    (sp : Select.Props) (mp : MultiSelect.Props) (w : UI) (t : string) :
  (forall e,
     In (OnCreateOption t) (calls (run (Select.dispatch sp w e) w)) ->
     t = JS.trim (inputValue w) /\ t <> "" /\
     JS.trimStart t = t /\ JS.trimEnd t = t /\
     JS.tooLong (Select.maxLength sp) t = false /\
     In (OnValueChange t) (calls (run (Select.dispatch sp w e) w)))
  /\
  (forall e,
     In (OnCreateOption t) (calls (run (MultiSelect.dispatch mp w e) w)) ->
     t = JS.trim (inputValue w) /\ t <> "" /\
     JS.trimStart t = t /\ JS.trimEnd t = t /\
     JS.tooLong (MultiSelect.maxLength mp) t = false /\
     ~ In t (MultiSelect.value mp) /\
     In (OnValueChange (MultiSelect.value mp ++ [t]))
        (calls (run (MultiSelect.dispatch mp w e) w))).
Proof.
  destruct (trim_clean (inputValue w)) as (Cs & Ce).
  split; intros e.
  - destruct e; exec_select; case_flags; cbn; intros H; in_calls H.
    all: injection H as <-.
    all: repeat match goal with
                | |- _ /\ _ => split
                end;
      try reflexivity; try assumption; try (cbn; tauto).
    all: apply truthy_nonempty; assumption.
  - destruct e; exec_multi; case_flags; cbn; intros H; in_calls H.
    all: injection H as <-.
    all: match goal with
         | E : (JS.truthy _ && negb (JS.arrIncludes _ _))%bool = true |- _ =>
             apply andb_true_iff in E; destruct E as (Et & En);
             apply negb_true_iff in En
         end.
    all: repeat match goal with
                | |- _ /\ _ => split
                end;
      try reflexivity; try assumption; try (cbn; tauto).
    all: try (apply truthy_nonempty; assumption).
    all: rewrite <- arrIncludes_In; congruence.
Qed.

(** Creating "Zig" in the demo's creatable [Select]. *)
Lemma created_option_is_clean_demo :
  "Zig" = JS.trim " Zig " /\ JS.tooLong (Some 20%Z) "Zig" = false.
Proof.
  destruct (proj1 (created_option_is_clean (Demo.custom "") (Demo.tags [])
                     (Demo.opened " Zig ") "Zig")
              (Select.KeyDown "Enter") (or_introl eq_refl))
    as (E & _ & _ & _ & G & _).
  exact (conj E G).
Defined.

(** X6: one event invokes each callback at most once. *)
Theorem one_call_per_event
    (sp : Select.Props) (mp : MultiSelect.Props) (w : UI) :
  (forall e,
     let trace := calls (run (Select.dispatch sp w e) w) in
     (List.length (valueChanges trace) <= 1)%nat /\
     (List.length (createdOptions trace) <= 1)%nat /\
     (List.length (openChanges trace) <= 1)%nat)
  /\
  (forall e,
     let trace := calls (run (MultiSelect.dispatch mp w e) w) in
     (List.length (valueChanges trace) <= 1)%nat /\
     (List.length (createdOptions trace) <= 1)%nat /\
     (List.length (openChanges trace) <= 1)%nat).
Proof.
  split; intros e.
  - destruct e; exec_select; case_flags; cbn; lia.
  - destruct e; exec_multi; case_flags; cbn; lia.
Qed.

(** X7: [onOpenChange] tells the truth: when an event invokes it, its
    argument is the open flag the next render sees; and when an event
    changes the open flag and the callback was supplied, it is invoked
    with the new flag. *)
Theorem open_change_is_reported
    (sp : Select.Props) (mp : MultiSelect.Props) (w : UI) :
  (forall e b,
     let r := run (Select.dispatch sp w e) w in
     (In (OnOpenChange b) (calls r) -> internalOpen (ui r) = b) /\
     (internalOpen (ui r) <> internalOpen w ->
      Select.onOpenChange sp = true ->
      In (OnOpenChange (internalOpen (ui r))) (calls r)))
  /\
  (forall e b,
     let r := run (MultiSelect.dispatch mp w e) w in
     (In (OnOpenChange b) (calls r) -> internalOpen (ui r) = b) /\
     (internalOpen (ui r) <> internalOpen w ->
      MultiSelect.onOpenChange mp = true ->
      In (OnOpenChange (internalOpen (ui r))) (calls r))).
Proof.
  split; intros e b.
  - destruct (internalOpen w) eqn:Hopen;
      destruct e; exec_select; rewrite ?Hopen; cbn; case_flags; cbn;
      (split; [intros H; in_calls H; congruence
              | intros Hne Hs; try congruence; auto]).
  - destruct (internalOpen w) eqn:Hopen;
      destruct e; exec_multi; rewrite ?Hopen; cbn; case_flags; cbn;
      (split; [intros H; in_calls H; congruence
              | intros Hne Hs; try congruence; auto]).
Qed.

(** ** Invariants of the filter text *)

Lemma Select_step_closed_empty (p : Select.Props) (w : UI) (e : Select.Event) :
  (internalOpen w = false -> inputValue w = "") ->
  Select.enabled p w e = true ->
  internalOpen (ui (run (Select.dispatch p w e) w)) = false ->
  inputValue (ui (run (Select.dispatch p w e) w)) = "".
Proof.
  intros Hinv En.
  assert (Hd : forall text, e = Select.InputChange text ->
                            Select.disabled p = false).
  { intros text ->. cbn in En. apply andb_true_iff in En.
    destruct En as (_ & En). apply negb_true_iff in En. exact En. }
  destruct (internalOpen w) eqn:Hopen.
  - destruct e; exec_select; rewrite ?Hopen; cbn; case_flags; cbn;
      congruence.
  - pose proof (Hinv eq_refl) as Hw.
    destruct e; exec_select; rewrite ?Hopen, ?Hw; cbn; case_flags; cbn;
      try congruence.
    discriminate (Hd _ eq_refl).
Qed.

(** X8: a [Select] that is closed has an empty filter text, in every
    state it reaches: every close clears the text, and an edit of the
    field of a closed container opens it. *)
Theorem select_closed_has_no_text (p : Select.Props) (w : UI) :
  Select.reachable p w ->
  internalOpen w = false ->
  inputValue w = "".
Proof.
  intros Hreach. induction Hreach as [|v w e r Hreach IH Hstep].
  - reflexivity.
  - unfold Select.step in Hstep.
    destruct (Select.enabled _ w e) eqn:En; [|discriminate].
    injection Hstep as <-.
    exact (Select_step_closed_empty (Select.withValue p v) w e IH En).
Qed.

(** After typing "re" into the demo's creatable [Select] and pressing
    the pointer outside it. *)
Lemma select_closed_has_no_text_demo :
  inputValue (Demo.closed "") = "".
Proof.
  refine (select_closed_has_no_text (Demo.custom "") (Demo.closed "") _ eq_refl).
  refine (Select.reach_step (Demo.custom "") "" (Demo.opened "re")
            Select.OutsideMouseDown
            {| ui := Demo.closed ""; calls := [] |} _ eq_refl).
  exact (Select.reach_step (Demo.custom "") "" (Select.initial (Demo.custom ""))
           (Select.InputChange "re")
           {| ui := Demo.opened "re"; calls := [] |}
           (Select.reach_initial _) eq_refl).
Defined.

(** X9: with a positive [maxLength], the filter text of either container
    never has more code units than [maxLength], in any state it
    reaches. *)
Theorem input_within_maxLength
    (sp : Select.Props) (mp : MultiSelect.Props) (ws wm : UI) (ms mm : Z) :
  Select.maxLength sp = Some ms ->
  MultiSelect.maxLength mp = Some mm ->
  (0 < ms)%Z -> (0 < mm)%Z ->
  Select.reachable sp ws ->
  MultiSelect.reachable mp wm ->
  (Z.of_nat (length (inputValue ws)) <= ms)%Z /\
  (Z.of_nat (length (inputValue wm)) <= mm)%Z.
Proof.
  intros Hs Hm Hms Hmm Rs Rm.
  assert (bound : forall m text,
            (0 < m)%Z ->
            text = "" \/ JS.tooLong (Some m) text = false ->
            (Z.of_nat (length text) <= m)%Z).
  { intros m text Hpos [-> | G]; [cbn; lia|].
    unfold JS.tooLong in G. destruct (Z.eqb_spec m 0); [lia|]. cbn in G.
    rewrite Z.gtb_ltb, Z.ltb_ge in G. exact G. }
  split.
  - apply bound; [exact Hms|]. rewrite <- Hs.
    apply Select_input_bounded, Rs.
  - apply bound; [exact Hmm|]. rewrite <- Hm.
    apply MultiSelect_input_bounded, Rm.
Qed.

(** The demo's two creatable containers after an edit. *)
Lemma input_within_maxLength_demo :
  (Z.of_nat (length "re") <= 20)%Z /\ (Z.of_nat (length "ru") <= 15)%Z.
Proof.
  refine (input_within_maxLength (Demo.custom "") (Demo.tags [])
            (Demo.opened "re") (Demo.closed "ru") 20 15
            eq_refl eq_refl eq_refl eq_refl _ _).
  - exact (Select.reach_step (Demo.custom "") ""
             (Select.initial (Demo.custom "")) (Select.InputChange "re")
             {| ui := Demo.opened "re"; calls := [] |}
             (Select.reach_initial _) eq_refl).
  - exact (MultiSelect.reach_step (Demo.tags []) []
             (MultiSelect.initial (Demo.tags [])) (MultiSelect.InputChange "ru")
             {| ui := Demo.closed "ru"; calls := [] |}
             (MultiSelect.reach_initial _) eq_refl).
Defined.

(** ** The filter *)

Lemma append_assoc (a b c : string) :
  ((a ++ b) ++ c)%string = (a ++ b ++ c)%string.
Proof. induction a as [|x a IH]; cbn; [reflexivity | rewrite IH; reflexivity]. Qed.

Lemma prefix_app (t s : string) :
  prefix t s = true <-> exists b, s = (t ++ b)%string.
Proof.
  revert s. induction t as [|x t IH]; intros s.
  - destruct s; cbn; split; eauto.
  - destruct s as [|y s]; cbn.
    + split; [discriminate | intros (b & H); discriminate].
    + destruct (ascii_dec x y) as [-> | Hne].
      * rewrite IH. split; intros (b & H); exists b; congruence.
      * split; [discriminate | intros (b & H); congruence].
Qed.

Lemma includes_app (s t : string) :
  JS.includes s t = true <-> exists a b, s = (a ++ t ++ b)%string.
Proof.
  induction s as [|x s IH].
  - cbn [JS.includes]. rewrite orb_false_r, prefix_app. split.
    + intros (b & H). exists "", b. exact H.
    + intros ([|y a] & b & H); [exists b; exact H | discriminate].
  - cbn [JS.includes]. rewrite orb_true_iff, prefix_app, IH. split.
    + intros [(b & H) | (a & b & H)].
      * exists "", b. exact H.
      * exists (String x a), b. cbn. congruence.
    + intros ([|y a] & b & H).
      * left. exists b. exact H.
      * right. exists a, b. cbn in H. congruence.
Qed.

Lemma includes_refl (s : string) : JS.includes s s = true.
Proof.
  apply includes_app. exists "", "". cbn.
  induction s as [|x s IH]; cbn; congruence.
Qed.

Lemma includes_trans (s t u : string) :
  JS.includes s t = true -> JS.includes t u = true -> JS.includes s u = true.
Proof.
  rewrite !includes_app. intros (a & b & ->) (c & d & ->).
  exists (a ++ c)%string, (d ++ b)%string.
  rewrite !append_assoc. reflexivity.
Qed.

Lemma toLowerCase_empty (t : string) :
  JS.toLowerCase t = "" <-> t = "".
Proof. destruct t; cbn; split; congruence. Qed.

(** A text whose lowercased form contains that of another keeps fewer
    children. *)
Lemma keepChild_narrows (t t' : string) (c : Child) :
  JS.includes (JS.toLowerCase t') (JS.toLowerCase t) = true ->
  keepChild t' c = true -> keepChild t c = true.
Proof.
  intros Hsub. destruct c as [i|]; [|reflexivity]. cbn. unfold labelMatches.
  intros H. exact (includes_trans _ _ _ H Hsub).
Qed.

Lemma truthy_includes (t t' : string) :
  JS.includes (JS.toLowerCase t') (JS.toLowerCase t) = true ->
  JS.truthy t = true -> JS.truthy t' = true.
Proof.
  intros H Ht. destruct t' as [|c t']; [|reflexivity].
  cbn [JS.toLowerCase] in H. apply includes_app in H.
  destruct H as ([|x a] & b & H); [|discriminate H].
  destruct (JS.toLowerCase t) eqn:E; [|discriminate H].
  rewrite (proj1 (toLowerCase_empty t) E) in Ht. discriminate Ht.
Qed.

(** X10: refining the filter text only narrows the list: when the
    lowercased new text contains the lowercased old one (the two texts
    the filter compares with), every row rendered for the new text was
    rendered for the old one, in [SelectContent] and in [MultiSelect];
    and an option whose lowercased label is the lowercased text is
    always rendered. *)
Theorem filter_narrows
    (items : list Child) (t t' : string) (c : Child)
    (mp : MultiSelect.Props) (w w' : UI) :
  (JS.includes (JS.toLowerCase t') (JS.toLowerCase t) = true ->
   In c (SelectContent_filteredChildren items (Some t')) ->
   In c (SelectContent_filteredChildren items (Some t)))
  /\
  (JS.includes (JS.toLowerCase (inputValue w'))
               (JS.toLowerCase (inputValue w)) = true ->
   In c (MultiSelect.filteredChildren mp w') ->
   In c (MultiSelect.filteredChildren mp w))
  /\
  (forall i,
     In (Element i) items ->
     JS.toLowerCase (SelectItem.label i) = JS.toLowerCase t ->
     In (Element i) (SelectContent_filteredChildren items (Some t))).
Proof.
  assert (narrow : forall its u u',
            JS.includes (JS.toLowerCase u') (JS.toLowerCase u) = true ->
            In c (if JS.truthy u' then filter (keepChild u') its else its) ->
            In c (if JS.truthy u then filter (keepChild u) its else its)).
  { intros its u u' Hsub. destruct (JS.truthy u) eqn:Hu.
    - rewrite (truthy_includes _ _ Hsub Hu), !filter_In.
      intros (Hin & Hk). split; [exact Hin|].
      exact (keepChild_narrows _ _ _ Hsub Hk).
    - destruct (JS.truthy u'); [rewrite filter_In; tauto | tauto]. }
  refine (conj (narrow items t t') (conj _ _)).
  - intros Hsub. unfold MultiSelect.filteredChildren.
    destruct (findSelectContent _) as [its|]; [|tauto].
    exact (narrow its _ _ Hsub).
  - intros i Hin Hlabel. unfold SelectContent_filteredChildren.
    destruct (JS.truthy t); [|exact Hin].
    apply filter_In. split; [exact Hin|]. cbn. unfold labelMatches.
    rewrite Hlabel. apply includes_refl.
Qed.

(** Typing "re", then "rea", into the demo's tag field: "react" stays. *)
Lemma filter_narrows_demo :
  In (Demo.item "react" "react")
     (SelectContent_filteredChildren Demo.tagItems (Some "re")).
Proof.
  refine (proj1 (filter_narrows Demo.tagItems "re" "rea"
                   (Demo.item "react" "react") (Demo.tags [])
                   (Demo.opened "re") (Demo.opened "rea")) eq_refl _).
  left. reflexivity.
Defined.

(** ** The rows under the list *)

Lemma hasMatch_rows (items : list Child) (text : string) :
  hasMatch items text = true <->
  exists i, In (Element i) (filter (keepChild text) items).
Proof.
  unfold hasMatch. rewrite existsb_exists. split.
  - intros ([i|] & Hin & Hm); [|discriminate].
    exists i. apply filter_In. split; assumption.
  - intros (i & H). apply filter_In in H. destruct H as (Hin & Hk).
    exists (Element i). split; assumption.
Qed.

Lemma no_rows_no_match (items : list Child) (text : string) :
  filter (keepChild text) items = [] -> hasMatch items text = false.
Proof.
  intros H. destruct (hasMatch items text) eqn:E; [|reflexivity].
  apply hasMatch_rows in E. destruct E as (i & Hin).
  rewrite H in Hin. destruct Hin.
Qed.

Lemma length_zero_nil {A : Type} (l : list A) :
  Nat.eqb (List.length l) 0 = true -> l = [].
Proof. destruct l; [reflexivity | discriminate]. Qed.

Lemma In_if_singleton {A : Type} (b : bool) (x y : A) :
  In x (if b then [y] else []) <-> b = true /\ y = x.
Proof. destruct b; cbn; intuition congruence. Qed.

Lemma length_zero_iff {A : Type} (l : list A) :
  Nat.eqb (List.length l) 0 = true <-> l = [].
Proof. destruct l; cbn; split; congruence. Qed.

(** When each row of [SelectContent] is rendered. *)
Lemma SelectContent_infoRows_In
    (children : list Child) (count : nat)
    (filterValue : option string) (creatable : bool) (row : InfoRow) :
  In row (SelectContent_infoRows children count filterValue creatable) <->
  SelectContent_filteredChildren children filterValue = [] /\
  match row with
  | NoOptionsFound => creatable = false /\ JS.truthyOpt filterValue = true
  | CreateRow text =>
      creatable = true /\ filterValue = Some text /\ JS.truthy text = true
  | NoOptionsAvailable =>
      JS.truthyOpt filterValue = false /\ count = 0
  end.
Proof.
  unfold SelectContent_infoRows. cbv zeta.
  rewrite !in_app_iff, In_if_singleton, In_if_singleton.
  assert (Hcreate :
    In row (if negb (negb (Nat.eqb (List.length
                 (SelectContent_filteredChildren children filterValue)) 0))
               && creatable && JS.truthyOpt filterValue
            then match filterValue with
                 | Some text => [CreateRow text]
                 | None => []
                 end
            else []) <->
    (negb (negb (Nat.eqb (List.length
                 (SelectContent_filteredChildren children filterValue)) 0))
     && creatable && JS.truthyOpt filterValue = true /\
     exists text, filterValue = Some text /\ CreateRow text = row)).
  { destruct (_ && _ && _); destruct filterValue as [text|]; cbn.
    - split; [intros [H | []]; eauto | intros (_ & u & Hu & H)].
      left. congruence.
    - split; [intros [] | intros (_ & u & Hu & _); discriminate].
    - split; [intros [] | intros (H & _); discriminate].
    - split; [intros [] | intros (H & _); discriminate]. }
  rewrite Hcreate. clear Hcreate.
  rewrite !andb_true_iff, !negb_true_iff, !negb_false_iff, length_zero_iff.
  rewrite Nat.eqb_eq.
  destruct row as [|text|].
  - split.
    + intros [(((Hf & Hc) & Ht) & _) | [(_ & u & _ & H) | (_ & H)]];
        try discriminate. tauto.
    + intros (Hf & Hc & Ht). left. tauto.
  - split.
    + intros [(_ & H) | [(((Hf & Hc) & Ht) & u & Hu & H) | (_ & H)]];
        try discriminate.
      injection H as ->. subst filterValue. cbn in Ht. tauto.
    + intros (Hf & Hc & Hu & Ht). right. left. subst filterValue.
      split; [tauto | eauto].
  - split.
    + intros [(_ & H) | [(_ & u & _ & H) | (((Hf & Ht) & Hn) & _)]];
        try discriminate.
      tauto.
    + intros (Hf & Ht & ->). right. right. tauto.
Qed.

(** X11: Enter looks for a match among the very options the list
    renders: there is a match iff the list, filtered by the text, shows
    an option. And while the create row is displayed, a click on it and
    Enter in the field have the same outcome, in [Select] (whose row
    quotes the text as typed) and in [MultiSelect] (whose row quotes
    the trimmed text). *)
Theorem create_row_agrees_with_enter
    (sp : Select.Props) (mp : MultiSelect.Props) (w : UI)
    (count : nat) (t : string) :
  (forall items text,
     hasMatch items text = true <->
     exists i, In (Element i) (filter (keepChild text) items))
  /\
  (In (CreateRow t) (Select_infoRows sp w count) ->
   t = inputValue w /\
   Select.enabled sp w Select.CreateRowClick = true /\
   run (Select.dispatch sp w Select.CreateRowClick) w
   = run (Select.dispatch sp w (Select.KeyDown "Enter")) w)
  /\
  (In (CreateRow t) (MultiSelect_infoRows mp w) ->
   t = JS.trim (inputValue w) /\
   MultiSelect.enabled mp w MultiSelect.CreateRowClick = true /\
   run (MultiSelect.dispatch mp w MultiSelect.CreateRowClick) w
   = run (MultiSelect.dispatch mp w (MultiSelect.KeyDown "Enter")) w).
Proof.
  refine (conj hasMatch_rows (conj _ _)).
  - unfold Select_infoRows.
    destruct (internalOpen w) eqn:Hopen; [|intros []].
    destruct (findSelectContent (Select.children sp)) as [items|] eqn:Hc;
      [|intros []].
    rewrite SelectContent_infoRows_In. intros (Hnil & Hcr & Hfv & Ht).
    unfold Select.filterValue in *. rewrite Hcr in *.
    injection Hfv as <-.
    refine (conj eq_refl (conj _ _)).
    + unfold Select.enabled, Select.filteredChildren, Select.filterValue.
      rewrite Hopen, Hc, Hcr, Hnil. cbn. rewrite Ht. reflexivity.
    + unfold Select.dispatch, Select.handleKeyDown.
      rewrite Hcr, Hc. cbn [negb orb].
      unfold SelectContent_filteredChildren in Hnil. rewrite Ht in Hnil.
      rewrite (no_rows_no_match _ _ Hnil), String.eqb_refl.
      unfold Select.handleCreateValue. cbv zeta.
      destruct (JS.truthy (JS.trim (inputValue w))); reflexivity.
  - unfold MultiSelect_infoRows.
    destruct (internalOpen w) eqn:Hopen; [|intros []].
    destruct (findSelectContent (MultiSelect.children mp)) as [items|] eqn:Hc;
      [|intros []].
    cbv zeta. rewrite in_app_iff, !In_if_singleton.
    intros [(_ & H) | (Hb & H)]; [discriminate|]. injection H as <-.
    rewrite !andb_true_iff, !negb_true_iff, negb_false_iff in Hb.
    destruct Hb as (((Hn & Hcr) & Ht) & Hi).
    apply length_zero_iff in Hn.
    refine (conj eq_refl (conj _ _)).
    + unfold MultiSelect.enabled. rewrite Hopen, Hc, Hn, Hcr, Ht, Hi.
      reflexivity.
    + unfold MultiSelect.dispatch, MultiSelect.handleKeyDown.
      rewrite Hcr, Ht, Hc, String.eqb_refl. cbn [negb orb].
      unfold MultiSelect.filteredChildren in Hn. rewrite Hc in Hn.
      rewrite (proj2 (truthy_nonempty (inputValue w)) (trim_truthy _ Ht)) in Hn.
      rewrite (no_rows_no_match _ _ Hn). reflexivity.
Qed.

(** Typing "zig" into the demo's creatable [Select]: the create row is
    displayed, and a click on it does what Enter does. *)
Lemma create_row_agrees_with_enter_demo :
  run (Select.dispatch (Demo.custom "") (Demo.opened "zig") Select.CreateRowClick)
      (Demo.opened "zig")
  = run (Select.dispatch (Demo.custom "") (Demo.opened "zig")
                         (Select.KeyDown "Enter"))
        (Demo.opened "zig").
Proof.
  refine (proj2 (proj2 (proj1 (proj2
            (create_row_agrees_with_enter (Demo.custom "") (Demo.tags [])
               (Demo.opened "zig") 0 "zig")) _))).
  left. reflexivity.
Defined.

Lemma truthy_empty (s : string) : JS.truthy s = false <-> s = "".
Proof. destruct s; cbn; split; congruence. Qed.

(** X12: the informational rows exclude one another and the options:
    at most one of them is rendered, and only under an empty list. A
    [Select] never renders "No options found", in any state: it passes
    a filter text to its content only when creatable. [MultiSelect]
    renders it exactly when it is open, has a [SelectContent], is not
    creatable and holds a non-empty filter text that keeps no row. The
    "No options available" row of a [Select] is rendered exactly when
    the content is open, has no child left by [toArray], gets no filter
    text and [React.Children.count] is 0. *)
Theorem info_rows
    (children : list Child) (count : nat) (filterValue : option string)
    (creatable : bool)
    (sp : Select.Props) (mp : MultiSelect.Props) (w : UI) :
  (List.length (SelectContent_infoRows children count filterValue creatable)
   <= 1)%nat
  /\
  (List.length (MultiSelect_infoRows mp w) <= 1)%nat
  /\
  (forall row,
     In row (SelectContent_infoRows children count filterValue creatable) ->
     SelectContent_filteredChildren children filterValue = [])
  /\
  (forall row,
     In row (MultiSelect_infoRows mp w) -> MultiSelect.filteredChildren mp w = [])
  /\
  ~ In NoOptionsFound (Select_infoRows sp w count)
  /\
  (In NoOptionsFound (MultiSelect_infoRows mp w) <->
   internalOpen w = true /\
   (exists items, findSelectContent (MultiSelect.children mp) = Some items) /\
   MultiSelect.creatable mp = false /\
   inputValue w <> "" /\
   MultiSelect.filteredChildren mp w = [])
  /\
  (In NoOptionsAvailable (Select_infoRows sp w count) <->
   internalOpen w = true /\
   findSelectContent (Select.children sp) = Some [] /\
   count = 0 /\
   (Select.creatable sp = false \/ inputValue w = "")).
Proof.
  assert (Hmulti : forall row,
    In row (MultiSelect_infoRows mp w) <->
    internalOpen w = true /\
    (exists items, findSelectContent (MultiSelect.children mp) = Some items) /\
    MultiSelect.filteredChildren mp w = [] /\
    match row with
    | NoOptionsFound =>
        MultiSelect.creatable mp = false /\ inputValue w <> ""
    | CreateRow text =>
        MultiSelect.creatable mp = true /\
        JS.truthy (JS.trim (inputValue w)) = true /\
        JS.arrIncludes (MultiSelect.value mp) (JS.trim (inputValue w)) = false /\
        text = JS.trim (inputValue w)
    | NoOptionsAvailable => False
    end).
  { intros row. unfold MultiSelect_infoRows.
    destruct (internalOpen w);
      [|cbn; split; [intros [] | intros (H & _); discriminate]].
    destruct (findSelectContent (MultiSelect.children mp)) as [items|];
      [|cbn; split; [intros [] | intros (_ & (its & H) & _); discriminate]].
    cbv zeta. rewrite in_app_iff, !In_if_singleton.
    rewrite !andb_true_iff, !negb_true_iff, !negb_false_iff, length_zero_iff.
    rewrite truthy_nonempty.
    destruct row as [|text|].
    - split.
      + intros [(((Hf & Hc) & Ht) & _) | (_ & H)]; [|discriminate].
        repeat split; eauto.
      + intros (_ & _ & Hf & Hc & Ht). left. tauto.
    - split.
      + intros [(_ & H) | ((((Hf & Hc) & Ht) & Hi) & H)]; [discriminate|].
        injection H as <-. repeat split; eauto.
      + intros (_ & _ & Hf & Hc & Ht & Hi & ->). right. tauto.
    - split.
      + intros [(_ & H) | (_ & H)]; discriminate.
      + tauto. }
  refine (conj _ (conj _ (conj _ (conj _ (conj _ (conj _ _)))))).
  - unfold SelectContent_infoRows. cbv zeta.
    destruct (negb (Nat.eqb _ 0)), creatable, filterValue as [text|];
      cbn [negb andb JS.truthyOpt]; try destruct (JS.truthy text);
      cbn [negb andb]; try destruct (Nat.eqb count 0); cbn; lia.
  - unfold MultiSelect_infoRows. cbv zeta.
    destruct (internalOpen w); [|cbn; lia].
    destruct (findSelectContent _); [|cbn; lia].
    destruct (negb (Nat.eqb _ 0)), (MultiSelect.creatable mp),
      (JS.truthy (inputValue w)), (JS.truthy (JS.trim (inputValue w))),
      (JS.arrIncludes _ _); cbn; lia.
  - intros row H. apply SelectContent_infoRows_In in H. tauto.
  - intros row H. apply Hmulti in H. tauto.
  - clear Hmulti. unfold Select_infoRows.
    destruct (internalOpen w); [|intros []].
    destruct (findSelectContent (Select.children sp)); [|intros []].
    rewrite SelectContent_infoRows_In. unfold Select.filterValue.
    intros (_ & Hc & Ht). rewrite Hc in Ht. discriminate.
  - rewrite Hmulti. tauto.
  - unfold Select_infoRows. destruct (internalOpen w).
    + destruct (findSelectContent (Select.children sp)) as [items|] eqn:Hc.
      * rewrite SelectContent_infoRows_In.
        unfold SelectContent_filteredChildren, Select.filterValue.
        destruct (Select.creatable sp); cbn [JS.truthyOpt].
        -- destruct (JS.truthy (inputValue w)) eqn:Ht.
           ++ split; [intros (_ & H & _); discriminate|].
              intros (_ & _ & _ & [H | H]); [discriminate|].
              rewrite H in Ht. discriminate.
           ++ apply truthy_empty in Ht. split.
              ** intros (-> & _ & ->). tauto.
              ** intros (_ & E & -> & _). injection E as ->. tauto.
        -- split.
           ++ intros (-> & _ & ->). tauto.
           ++ intros (_ & E & -> & _). injection E as ->. tauto.
      * cbn. split; [tauto | intros (_ & H & _); discriminate].
    + cbn. split; [tauto | intros (H & _); discriminate].
Qed.

(** ** Labels *)

Lemma findItem_In (items : list Child) (v : string) (i : SelectItem.Props) :
  findItem items v = Some i ->
  In (Element i) items /\ SelectItem.value i = v.
Proof.
  induction items as [|[j|] items IH]; cbn; [discriminate| |].
  - destruct (String.eqb_spec (SelectItem.value j) v) as [E | _].
    + intros H. injection H as <-. auto.
    + intros H. destruct (IH H). auto.
  - intros H. destruct (IH H). auto.
Qed.

Lemma findItem_None (items : list Child) (v : string) :
  findItem items v = None <->
  forall j, In (Element j) items -> SelectItem.value j <> v.
Proof.
  induction items as [|[j|] items IH]; cbn.
  - split; [intros _ j [] | reflexivity].
  - destruct (String.eqb_spec (SelectItem.value j) v) as [E | Hne].
    + split; [discriminate|]. intros H. exfalso. exact (H j (or_introl eq_refl) E).
    + rewrite IH. split.
      * intros H k [Hk | Hk]; [injection Hk as <-; exact Hne | exact (H k Hk)].
      * intros H k Hk. apply H. right. exact Hk.
  - rewrite IH. split.
    + intros H k [Hk | Hk]; [discriminate | exact (H k Hk)].
    + intros H k Hk. apply H. right. exact Hk.
Qed.

(** Among options with distinct values, the lookup by value finds the
    option itself. *)
Lemma findItem_unique (items : list Child) (i : SelectItem.Props) :
  In (Element i) items ->
  (forall j, In (Element j) items ->
             SelectItem.value j = SelectItem.value i -> j = i) ->
  findItem items (SelectItem.value i) = Some i.
Proof.
  intros Hin Huniq.
  destruct (findItem items (SelectItem.value i)) as [j|] eqn:E.
  - destruct (findItem_In _ _ _ E) as (Hj & Hv). f_equal. exact (Huniq j Hj Hv).
  - exfalso. exact (proj1 (findItem_None _ _) E i Hin eq_refl).
Qed.

Lemma Select_rows_are_children (p : Select.Props) (w : UI)
    (items : list Child) (c : Child) :
  findSelectContent (Select.children p) = Some items ->
  In c (Select.filteredChildren p w) -> In c items.
Proof.
  intros Hc. unfold Select.filteredChildren, SelectContent_filteredChildren.
  rewrite Hc. destruct (Select.filterValue p w) as [text|]; [|tauto].
  destruct (JS.truthy text); [|tauto]. rewrite filter_In. tauto.
Qed.

Lemma MultiSelect_rows_are_children (p : MultiSelect.Props) (w : UI)
    (items : list Child) (c : Child) :
  findSelectContent (MultiSelect.children p) = Some items ->
  In c (MultiSelect.filteredChildren p w) -> In c items.
Proof.
  intros Hc. unfold MultiSelect.filteredChildren. rewrite Hc.
  destruct (JS.truthy (inputValue w)); [|tauto]. rewrite filter_In. tauto.
Qed.

(** The lookup by value returns the first option with that value, in
    the order of the children. *)
Lemma findItem_first (pre post : list Child) (i : SelectItem.Props) :
  (forall j, In (Element j) pre -> SelectItem.value j <> SelectItem.value i) ->
  findItem (pre ++ Element i :: post) (SelectItem.value i) = Some i.
Proof.
  induction pre as [|[j|] pre IH]; intros Hpre; cbn.
  - rewrite String.eqb_refl. reflexivity.
  - destruct (String.eqb_spec (SelectItem.value j) (SelectItem.value i))
      as [E | _].
    + exfalso. exact (Hpre j (or_introl eq_refl) E).
    + apply IH. intros k Hk. apply Hpre. right. exact Hk.
  - apply IH. intros k Hk. apply Hpre. right. exact Hk.
Qed.

(** X13: select, then display. In a [Select] whose options have distinct
    values, clicking a rendered item with a non-empty value (within a
    non-zero [maxLength]) hands that value to [onValueChange]; once the
    caller has stored it the item carries the check mark, and the
    trigger of the next render is: in a non-creatable [Select], the
    button showing the children of the clicked item; in a creatable
    one, the text field showing the raw value (the dropdown being
    closed), or the empty filter text when the container is disabled
    and so stays open. *)
Theorem trigger_shows_clicked_item
    (p : Select.Props) (w : UI) (row : nat) (i : SelectItem.Props)
    (items : list Child) :
  findSelectContent (Select.children p) = Some items ->
  internalOpen w = true ->
  nth_error (Select.filteredChildren p w) row = Some (Element i) ->
  JS.tooLong (Select.maxLength p) (SelectItem.value i) = false ->
  SelectItem.value i <> "" ->
  (forall j, In (Element j) items ->
             SelectItem.value j = SelectItem.value i -> j = i) ->
  exists r,
    Select.step p w (Select.ItemClick row) = Some r /\
    let v' := stored (Select.value p) (calls r) in
    v' = SelectItem.value i /\
    SelectItem_isSelected i (Some v') None = true /\
    Select_trigger (Select.withValue p v') (ui r) =
      if Select.creatable p
      then Field (if Select.disabled p then "" else SelectItem.value i)
      else Button (ItemChildren (SelectItem.children i)).
Proof.
  intros Hc Hopen Hrow G Hne Huniq.
  exists (run (Select.dispatch p w (Select.ItemClick row)) w).
  assert (Hrun :
    run (Select.dispatch p w (Select.ItemClick row)) w
    = Select_committed p w (SelectItem.value i)).
  { unfold Select.dispatch. rewrite Hrow. unfold SelectItem_handleClick, run.
    rewrite (Select_handleValueChange_run p w _ [] G). reflexivity. }
  assert (Hstored :
    stored (Select.value p) (calls (Select_committed p w (SelectItem.value i)))
    = SelectItem.value i).
  { unfold Select_committed. cbn [calls].
    destruct (Select.disabled p), (Select.onOpenChange p); reflexivity. }
  split.
  - unfold Select.step, Select.enabled. rewrite Hopen, Hrow. reflexivity.
  - cbv zeta. rewrite Hrun, Hstored. refine (conj eq_refl (conj _ _)).
    + cbn. apply String.eqb_refl.
    + unfold Select_trigger, SelectTrigger_view, SelectTrigger_inputText,
        SelectTrigger_displayText, Select_committed.
      cbn [Select.value Select.children Select.creatable Select.withValue
           ui internalOpen inputValue].
      destruct (Select.creatable p).
      * rewrite Hopen. destruct (Select.disabled p); reflexivity.
      * rewrite (proj2 (truthy_nonempty _) Hne), Hc.
        rewrite (findItem_unique items i); [reflexivity| |exact Huniq].
        apply (Select_rows_are_children p w items _ Hc).
        exact (nth_error_In _ _ Hrow).
Qed.

(** Clicking "Vue" in the demo's framework list: the button shows
    "Vue". *)
Lemma trigger_shows_clicked_item_demo :
  exists r,
    Select.step (Demo.framework "") (Demo.opened "") (Select.ItemClick 2)
      = Some r /\
    let v' := stored "" (calls r) in
    v' = "vue" /\
    SelectItem_isSelected
      {| SelectItem.value := "vue"; SelectItem.children := PlainText "Vue" |}
      (Some v') None = true /\
    Select_trigger (Select.withValue (Demo.framework "") v') (ui r)
      = Button (ItemChildren (PlainText "Vue")).
Proof.
  refine (trigger_shows_clicked_item (Demo.framework "") (Demo.opened "") 2
            {| SelectItem.value := "vue"; SelectItem.children := PlainText "Vue" |}
            Demo.frameworkItems eq_refl eq_refl eq_refl eq_refl _ _).
  - discriminate.
  - intros j Hin Hv. cbn in Hin.
    repeat (destruct Hin as [Hin | Hin];
            [injection Hin as <-; first [reflexivity | discriminate Hv]|]).
    destruct Hin.
Defined.

(** X14: what is shown for a value without an option. The button of a
    non-creatable [Select] shows the trigger's own children (the
    placeholder) when the value is the empty string (even if an option
    has the empty value), when there is no [SelectContent], and when no
    option has the value; the text field of a creatable [Select] shows
    the raw value while closed and the filter text while open; a chip
    of [MultiSelect] shows the raw value when there is no
    [SelectContent] or no option has it. Among several options of one
    value, the first in the order of the children gives the label. *)
Theorem labels_without_option
    (sp : Select.Props) (mp : MultiSelect.Props) (w : UI) (v : string)
    (items : list Child) :
  (Select.creatable sp = false ->
   Select.value sp = "" ->
   Select_trigger sp w = Button OwnChildren)
  /\
  (Select.creatable sp = false ->
   findSelectContent (Select.children sp) = None ->
   Select_trigger sp w = Button OwnChildren)
  /\
  (Select.creatable sp = false ->
   findSelectContent (Select.children sp) = Some items ->
   (forall j, In (Element j) items -> SelectItem.value j <> Select.value sp) ->
   Select_trigger sp w = Button OwnChildren)
  /\
  (Select.creatable sp = true ->
   Select_trigger sp w =
     Field (if internalOpen w then inputValue w else Select.value sp))
  /\
  (findSelectContent (MultiSelect.children mp) = None ->
   MultiSelect_getItemLabel mp v = PlainText v)
  /\
  (findSelectContent (MultiSelect.children mp) = Some items ->
   (forall j, In (Element j) items -> SelectItem.value j <> v) ->
   MultiSelect_getItemLabel mp v = PlainText v)
  /\
  (forall pre post i,
     (forall j, In (Element j) pre ->
                SelectItem.value j <> SelectItem.value i) ->
     findItem (pre ++ Element i :: post) (SelectItem.value i) = Some i).
Proof.
  unfold Select_trigger, SelectTrigger_view, SelectTrigger_inputText,
    SelectTrigger_displayText, MultiSelect_getItemLabel.
  refine (conj _ (conj _ (conj _ (conj _ (conj _ (conj _ _)))))).
  - intros -> ->. reflexivity.
  - intros -> ->. destruct (JS.truthy _); reflexivity.
  - intros -> -> H. apply findItem_None in H. rewrite H.
    destruct (JS.truthy _); reflexivity.
  - intros ->. reflexivity.
  - intros ->. reflexivity.
  - intros -> H. apply findItem_None in H. rewrite H. reflexivity.
  - exact findItem_first.
Qed.

(** A value that is no option: the placeholder in the demo's framework
    button, the raw value in the closed field of the creatable [Select]
    and in a chip of the tag field. *)
Lemma labels_without_option_demo :
  Select_trigger (Demo.framework "rust") (Demo.closed "") = Button OwnChildren /\
  Select_trigger (Demo.custom "rust") (Demo.closed "") = Field "rust" /\
  MultiSelect_getItemLabel (Demo.tags ["rust"]) "rust" = PlainText "rust".
Proof.
  pose proof (labels_without_option (Demo.framework "rust")
                (Demo.tags ["rust"]) (Demo.closed "") "rust"
                Demo.frameworkItems)
    as (_ & _ & S & _).
  pose proof (labels_without_option (Demo.custom "rust")
                (Demo.tags ["rust"]) (Demo.closed "") "rust" Demo.tagItems)
    as (_ & _ & _ & F & _ & M & _).
  refine (conj _ (conj (F eq_refl) _)).
  - apply (S eq_refl eq_refl). intros j Hin. cbn in Hin.
    repeat (destruct Hin as [Hin | Hin]; [injection Hin as <-; discriminate|]).
    destruct Hin.
  - apply (M eq_refl). intros j Hin. cbn in Hin.
    repeat (destruct Hin as [Hin | Hin]; [injection Hin as <-; discriminate|]).
    destruct Hin.
Defined.

(** X15: create, then display. After a creation by Enter in a creatable
    [Select] (the conditions of the creation: a reachable state, the
    field enabled, a [SelectContent] child, a text non-empty after
    trimming that matches no option), the dropdown is closed and, once
    the caller has stored what [onValueChange] received, the text field
    of the trigger displays the trimmed text. *)
Theorem created_value_is_displayed
    (p : Select.Props) (v : string) (w : UI) (items : list Child) :
  Select.reachable p w ->
  Select.enabled p w (Select.KeyDown "Enter") = true ->
  findSelectContent (Select.children p) = Some items ->
  JS.truthy (JS.trim (inputValue w)) = true ->
  hasMatch items (inputValue w) = false ->
  exists r,
    Select.step (Select.withValue p v) w (Select.KeyDown "Enter") = Some r /\
    SelectTrigger_inputText (internalOpen (ui r)) (inputValue (ui r))
                            (stored v (calls r))
    = JS.trim (inputValue w).
Proof.
  intros Hreach En Hcontent Ht Hnone.
  destruct (Select_key_enabled p w _ En) as (Hc & Hd).
  pose proof (trimmed_passes_guard _ _ (Select_input_bounded p w Hreach) Ht) as G.
  exists (run (Select.handleKeyDown (Select.withValue p v) w "Enter") w).
  split.
  - unfold Select.step.
    change (Select.enabled (Select.withValue p v) w (Select.KeyDown "Enter"))
      with (Select.enabled p w (Select.KeyDown "Enter")).
    rewrite En. reflexivity.
  - rewrite (Select_handleKeyDown_Enter (Select.withValue p v) w items
               Hc Hcontent Ht Hnone).
    cbv zeta. unfold Select_committed.
    cbn [Select.maxLength Select.disabled Select.onCreateOption
         Select.onOpenChange Select.withValue].
    rewrite G, Hd. cbn [ui calls internalOpen inputValue SelectTrigger_inputText].
    destruct (Select.onCreateOption p), (Select.onOpenChange p); reflexivity.
Qed.

(** Creating "Zig" in the demo's creatable [Select]. *)
Lemma created_value_is_displayed_demo :
  exists r,
    Select.step (Demo.custom "") (Demo.opened " Zig ") (Select.KeyDown "Enter")
      = Some r /\
    SelectTrigger_inputText (internalOpen (ui r)) (inputValue (ui r))
                            (stored "" (calls r))
    = "Zig".
Proof.
  refine (created_value_is_displayed (Demo.custom "") "" (Demo.opened " Zig ")
            Demo.customItems _ eq_refl eq_refl eq_refl eq_refl).
  exact (Select.reach_step (Demo.custom "") "" (Select.initial (Demo.custom ""))
           (Select.InputChange " Zig ")
           {| ui := Demo.opened " Zig "; calls := [] |}
           (Select.reach_initial _) eq_refl).
Defined.

(** X16: toggle, then display. In a [MultiSelect] whose options have
    distinct values, clicking a rendered item whose value is not yet
    selected appends it; once the caller has stored the array, the
    value is selected, its item carries the check mark, and its chip
    shows the children of the clicked item. *)
Theorem chip_shows_toggled_item
    (p : MultiSelect.Props) (w : UI) (row : nat) (i : SelectItem.Props)
    (items : list Child) :
  findSelectContent (MultiSelect.children p) = Some items ->
  internalOpen w = true ->
  nth_error (MultiSelect.filteredChildren p w) row = Some (Element i) ->
  ~ In (SelectItem.value i) (MultiSelect.value p) ->
  (forall j, In (Element j) items ->
             SelectItem.value j = SelectItem.value i -> j = i) ->
  exists r,
    MultiSelect.step p w (MultiSelect.ItemClick row) = Some r /\
    let v' := stored (MultiSelect.value p) (calls r) in
    v' = MultiSelect.value p ++ [SelectItem.value i] /\
    SelectItem_isSelected i None (Some v') = true /\
    MultiSelect_getItemLabel (MultiSelect.withValue p v') (SelectItem.value i)
      = SelectItem.children i.
Proof.
  intros Hc Hopen Hrow Hnew Huniq.
  exists (run (MultiSelect.dispatch p w (MultiSelect.ItemClick row)) w).
  assert (Hstored :
    stored (MultiSelect.value p)
           (calls (run (MultiSelect.dispatch p w (MultiSelect.ItemClick row)) w))
    = MultiSelect.value p ++ [SelectItem.value i]).
  { unfold MultiSelect.dispatch. rewrite Hrow.
    unfold SelectItem_handleClick. rewrite handleToggleValue_run.
    cbn [calls stored fold_left]. unfold MultiSelect.toggled.
    destruct (JS.arrIncludes _ _) eqn:E; [|reflexivity].
    apply arrIncludes_In in E. contradiction. }
  split.
  - unfold MultiSelect.step, MultiSelect.enabled. rewrite Hopen, Hrow.
    reflexivity.
  - cbv zeta. rewrite Hstored. refine (conj eq_refl (conj _ _)).
    + cbn. apply arrIncludes_app_last.
    + unfold MultiSelect_getItemLabel.
      cbn [MultiSelect.children MultiSelect.withValue]. rewrite Hc.
      rewrite (findItem_unique items i); [reflexivity| |exact Huniq].
      apply (MultiSelect_rows_are_children p w items _ Hc).
      exact (nth_error_In _ _ Hrow).
Qed.

(** Clicking "Svelte" in the demo's framework [MultiSelect]. *)
Lemma chip_shows_toggled_item_demo :
  exists r,
    MultiSelect.step (Demo.frameworks false ["react"; "vue"]) (Demo.opened "")
                     (MultiSelect.ItemClick 3) = Some r /\
    let v' := stored ["react"; "vue"] (calls r) in
    v' = ["react"; "vue"; "svelte"] /\
    SelectItem_isSelected
      {| SelectItem.value := "svelte"; SelectItem.children := PlainText "Svelte" |}
      None (Some v') = true /\
    MultiSelect_getItemLabel
      (MultiSelect.withValue (Demo.frameworks false ["react"; "vue"]) v')
      "svelte" = PlainText "Svelte".
Proof.
  refine (chip_shows_toggled_item (Demo.frameworks false ["react"; "vue"])
            (Demo.opened "") 3
            {| SelectItem.value := "svelte";
               SelectItem.children := PlainText "Svelte" |}
            Demo.frameworkItems eq_refl eq_refl eq_refl _ _).
  - cbn. intros [H | [H | []]]; discriminate H.
  - intros j Hin Hv. cbn in Hin.
    repeat (destruct Hin as [Hin | Hin];
            [injection Hin as <-; first [reflexivity | discriminate Hv]|]).
    destruct Hin.
Defined.

(** ** What opens and what closes *)

(** X17: the open flag changes only through a few events. A closed
    [Select] is opened only by a click on its trigger or by an edit of
    its field, and an edit never closes it; a closed [MultiSelect] is
    opened only by a click on its container or by the focus of its
    field, and an open one is closed only by a pointer-down outside it:
    toggling, removing, clearing and creating leave it open. *)
Theorem open_flag_transitions
    (sp : Select.Props) (mp : MultiSelect.Props) (w : UI) :
  (forall e,
     internalOpen w = false ->
     internalOpen (ui (run (Select.dispatch sp w e) w)) = true ->
     e = Select.TriggerClick \/ exists text, e = Select.InputChange text)
  /\
  (forall text,
     internalOpen w = true ->
     internalOpen (ui (run (Select.dispatch sp w (Select.InputChange text)) w))
     = true)
  /\
  (forall e,
     internalOpen w = false ->
     internalOpen (ui (run (MultiSelect.dispatch mp w e) w)) = true ->
     e = MultiSelect.ContainerClick \/ e = MultiSelect.InputFocus)
  /\
  (forall e,
     internalOpen w = true ->
     internalOpen (ui (run (MultiSelect.dispatch mp w e) w)) = false ->
     e = MultiSelect.OutsideMouseDown).
Proof.
  refine (conj _ (conj _ (conj _ _))).
  - intros e Hopen. destruct e; eauto; exec_select; rewrite ?Hopen; cbn;
      case_flags; cbn; congruence.
  - intros text Hopen. exec_select. rewrite Hopen. cbn.
    case_flags; cbn; congruence.
  - intros e Hopen. destruct e; auto; exec_multi; rewrite ?Hopen; cbn;
      case_flags; cbn; congruence.
  - intros e Hopen. destruct e; auto; exec_multi; rewrite ?Hopen; cbn;
      case_flags; cbn; congruence.
Qed.

(** X18: two clicks on the trigger of a [Select] that is not disabled
    bring the open flag back to what it was, report both transitions
    through [onOpenChange] when supplied, and leave the filter text
    empty: a text typed before the clicks is lost. *)
Theorem trigger_click_twice (p : Select.Props) (w : UI) :
  Select.disabled p = false ->
  let first := run (Select.onToggle p w) w in
  let second := run (Select.onToggle p (ui first)) (ui first) in
  ui second = {| internalOpen := internalOpen w; inputValue := "" |} /\
  (internalOpen w = false -> ui first = {| internalOpen := true;
                                           inputValue := inputValue w |}) /\
  calls first ++ calls second =
    optCall (Select.onOpenChange p) (OnOpenChange (negb (internalOpen w)))
    ++ optCall (Select.onOpenChange p) (OnOpenChange (internalOpen w)).
Proof.
  intros Hd first second. subst first second. unfold Select.onToggle.
  rewrite !Select_handleOpenChange_run, Hd.
  destruct (internalOpen w); cbn; rewrite ?app_nil_r;
    repeat split; try discriminate.
Qed.

(** Two clicks on the trigger of the demo's creatable [Select] while
    "re" is typed. *)
Lemma trigger_click_twice_demo :
  ui (run (Select.onToggle (Demo.custom "") (Demo.closed ""))
          (Demo.closed "")) = Demo.opened "".
Proof.
  destruct (trigger_click_twice (Demo.custom "") (Demo.opened "re") eq_refl)
    as (E & _).
  exact E.
Defined.
